(** * Product domain entity, factory and Cosmos repository adapter

    A shallow embedding of
      - [src/domain/product.ts]            (module [ProductTs]),
      - the second copy of the factory found in the repository
        ([unnamed/part_000], module [Part000]),
      - [src/domain/product-repo.ts] and the Cosmos adapter
        (module [CosmosProductRepo]).

    TypeScript types are erased at run time and the validators inspect
    their arguments with [typeof] and [instanceof]; field values are
    therefore modelled as untyped JavaScript values.  Numbers are binary64
    doubles, strings are sequences of UTF-16 code units, a [Date] holds a
    time value in milliseconds or NaN.  The built-ins that the code calls
    ([trim], [toISOString], [new Date(string)]) are modelled after the
    language standard (module [DateTime]); the Cosmos SDK is an interface
    ([CosmosProductRepo.Container]) with a reference implementation
    ([MemContainer]).  Module [Spec] holds the predicates that follow the
    words of the specification. *)

From stdpp Require Import gmap list.
From Stdlib Require Import ZArith NArith List String Ascii Bool Lia Floats.
Import ListNotations.

Local Open Scope Z_scope.

(** ** JavaScript run-time values *)

(** A JavaScript string is a sequence of UTF-16 code units. *)
Definition jsstring : Type := list N.

(** Source literals are ASCII: one code unit per character. *)
Fixpoint str (s : string) : jsstring :=
  match s with
  | EmptyString => []
  | String c s' => N_of_ascii c :: str s'
  end.

(** The internal time value of a [Date]: an integral number of
    milliseconds since the epoch, or NaN ([None]) for an invalid date. *)
Record Date : Type := mkDate { DateValue : option Z }.

Inductive JSValue : Type :=
| VUndefined
| VNull
| VBoolean (b : bool)
| VNumber (x : float)
| VString (s : jsstring)
| VDate (d : Date)
| VObject (tag : N).          (* any other object *)

Definition typeof (v : JSValue) : string :=
  match v with
  | VUndefined => "undefined"
  | VNull => "object"
  | VBoolean _ => "boolean"
  | VNumber _ => "number"
  | VString _ => "string"
  | VDate _ => "object"
  | VObject _ => "object"
  end.

Definition isUndefined (v : JSValue) : bool :=
  match v with VUndefined => true | _ => false end.

(** [ToBoolean]: the falsy values are undefined, null, false, +0, -0, NaN
    and the empty string. *)
Definition truthy (v : JSValue) : bool :=
  match v with
  | VUndefined | VNull => false
  | VBoolean b => b
  | VNumber x => negb (PrimFloat.is_zero x || PrimFloat.is_nan x)
  | VString s => match s with [] => false | _ => true end
  | VDate _ | VObject _ => true
  end.

(** *** [String.prototype.trim] *)

(** WhiteSpace and LineTerminator code points of ECMA-262; all of them lie
    in the basic multilingual plane, so the test is per code unit. *)
Definition isWhiteSpace (c : N) : bool :=
  existsb (N.eqb c)
    [ 0x0009; 0x000A; 0x000B; 0x000C; 0x000D; 0x0020; 0x00A0; 0x1680;
      0x2000; 0x2001; 0x2002; 0x2003; 0x2004; 0x2005; 0x2006; 0x2007;
      0x2008; 0x2009; 0x200A; 0x2028; 0x2029; 0x202F; 0x205F; 0x3000;
      0xFEFF ]%N.

Fixpoint trimStart (s : jsstring) : jsstring :=
  match s with
  | [] => []
  | c :: s' => if isWhiteSpace c then trimStart s' else s
  end.

Definition trimEnd (s : jsstring) : jsstring := rev (trimStart (rev s)).

Definition trim (s : jsstring) : jsstring := trimEnd (trimStart s).

(** *** Numbers *)

(** [Number.isFinite] on a value already known to be a number. *)
Definition Number_isFinite (x : float) : bool := PrimFloat.is_finite x.

(** [Number.isInteger]: finite and without fractional part.  A finite
    double is [m * 2^e]. *)
Definition Number_isInteger (x : float) : bool :=
  match Prim2SF x with
  | S754_zero _ => true
  | S754_finite _ m e => (0 <=? e) || (Z.pos m mod 2 ^ (- e) =? 0)
  | S754_infinity _ | S754_nan => false
  end.

(** *** Dates *)

(** [Number.isNaN(d.getTime())] / [isNaN(d.getTime())]: [getTime] returns
    the time value, which is NaN exactly for an invalid date. *)
Definition getTime_isNaN (d : Date) : bool :=
  match DateValue d with None => true | Some _ => false end.

(** [new Date()]: the current time, as read from the clock. *)
Definition Date_now (now : Z) : Date := mkDate (Some now).

(** ** Exceptions *)

(** Values that the modelled code throws or catches. *)
Inductive Thrown : Type :=
| ProductError (field : string) (message : string)
| RangeError (message : string)
| ErrorObject (code statusCode : JSValue) (message : jsstring)
| ThrownValue (v : JSValue).     (* a thrown primitive *)

Inductive Completion (A : Type) : Type :=
| Return (a : A)
| Throw (e : Thrown).
Arguments Return {A} a.
Arguments Throw {A} e.

(** ** Declarations shared by the two copies of [product.ts] *)

Module ProductProps.
Record t : Type := mk {
  id : JSValue;
  name : JSValue;
  price : JSValue;
  description : JSValue;
  category : JSValue;
  createdAt : JSValue;
  updatedAt : JSValue
}.
End ProductProps.

(* Validators (pure); identical in both files. *)
Definition isNonEmptyString (v : JSValue) : bool :=
  String.eqb (typeof v) "string" &&
  match v with
  | VString s => (0 <? Z.of_nat (List.length (trim s)))
  | _ => false
  end.

Definition isNonNegativeNumber (v : JSValue) : bool :=
  String.eqb (typeof v) "number" &&
  match v with
  | VNumber x => Number_isFinite x && (0 <=? x)%float
  | _ => false
  end.

Definition toDateOrUndefined (v : JSValue) : option Date :=
  match v with
  | VDate d => if negb (getTime_isNaN d) then Some d else None
  | _ => None
  end.

(** The nullish-coalescing operator [a ?? b] on an optional date. *)
Definition orElse (a : option Date) (b : Date) : Date :=
  match a with Some d => d | None => b end.

(** [errors.push(msg)] guarded by a condition. *)
Definition pushIf (c : bool) (msg : string) (errors : list string)
  : list string :=
  if c then errors ++ [msg] else errors.

Definition ERR_ID : string :=
  "id is required and must be a non-empty string".
Definition ERR_NAME : string :=
  "name is required and must be a non-empty string".
Definition ERR_PRICE : string :=
  "price is required and must be a non-negative number".
Definition ERR_DESCRIPTION : string :=
  "description, if provided, must be a string".
Definition ERR_CATEGORY : string :=
  "category, if provided, must be a string".

(** ** [unnamed/part_000] *)

Module Part000.

Module Product.
Record t : Type := mk {
  id : JSValue;
  name : JSValue;
  price : JSValue;
  description : JSValue;
  category : JSValue;
  createdAt : Date;
  updatedAt : Date
}.

(** Own properties of the frozen object literal, in insertion order. *)
Definition ownProperties (p : t) : list (string * JSValue) :=
  [ ("id", id p); ("name", name p); ("price", price p);
    ("description", description p); ("category", category p);
    ("createdAt", VDate (createdAt p));
    ("updatedAt", VDate (updatedAt p)) ]%string.
End Product.

Inductive CreateProductResult : Type :=
| Success (product : Product.t)
| Failure (errors : list string).

(** The error list of a result; a success carries none. *)
Definition errorsOf (r : CreateProductResult) : list string :=
  match r with Success _ => [] | Failure errors => errors end.

(* Factory (pure) *)
Definition createProduct (props : ProductProps.t) (now : Z)
  : CreateProductResult :=
  let errors : list string := [] in
  let errors :=
    pushIf (negb (isNonEmptyString (ProductProps.id props)))
           ERR_ID errors in
  let errors :=
    pushIf (negb (isNonEmptyString (ProductProps.name props)))
           ERR_NAME errors in
  let errors :=
    pushIf (negb (isNonNegativeNumber (ProductProps.price props)))
           ERR_PRICE errors in
  let errors :=
    pushIf (negb (isUndefined (ProductProps.description props)) &&
            negb (String.eqb (typeof (ProductProps.description props))
                             "string"))
           ERR_DESCRIPTION errors in
  let errors :=
    pushIf (negb (isUndefined (ProductProps.category props)) &&
            negb (String.eqb (typeof (ProductProps.category props))
                             "string"))
           ERR_CATEGORY errors in
  let createdAt :=
    orElse (toDateOrUndefined (ProductProps.createdAt props))
           (Date_now now) in
  let updatedAt :=
    orElse (toDateOrUndefined (ProductProps.updatedAt props))
           createdAt in
  if (0 <? Z.of_nat (List.length errors)) then Failure errors
  else
    Success {|
      Product.id := ProductProps.id props;
      Product.name := ProductProps.name props;
      Product.price := ProductProps.price props;
      Product.description := ProductProps.description props;
      Product.category := ProductProps.category props;
      Product.createdAt := createdAt;
      Product.updatedAt := updatedAt
    |}.

End Part000.

(** ** [src/domain/product.ts] *)

Module ProductTs.

Module Product.
Record t : Type := mk {
  id : JSValue;
  name : JSValue;
  pricePence : JSValue;
  description : JSValue;
  updatedAt : Date
}.

(** Own properties of the frozen object literal, in insertion order. *)
Definition ownProperties (p : t) : list (string * JSValue) :=
  [ ("id", id p); ("name", name p); ("pricePence", pricePence p);
    ("description", description p);
    ("updatedAt", VDate (updatedAt p)) ]%string.
End Product.

Module CreateProductParams.
Record t : Type := mk {
  id : JSValue;
  name : JSValue;
  pricePence : JSValue;
  description : JSValue;
  updatedAt : JSValue
}.
End CreateProductParams.

Inductive CreateProductResult : Type :=
| Success (product : Product.t)
| Failure (errors : list string).

(** The error list of a result; a success carries none. *)
Definition errorsOf (r : CreateProductResult) : list string :=
  match r with Success _ => [] | Failure errors => errors end.

(* Factory (pure) *)
Definition createProduct (props : ProductProps.t) (now : Z)
  : CreateProductResult :=
  let errors : list string := [] in
  let errors :=
    pushIf (negb (isNonEmptyString (ProductProps.id props)))
           ERR_ID errors in
  let errors :=
    pushIf (negb (isNonEmptyString (ProductProps.name props)))
           ERR_NAME errors in
  let errors :=
    pushIf (negb (isNonNegativeNumber (ProductProps.price props)))
           ERR_PRICE errors in
  let errors :=
    pushIf (negb (isUndefined (ProductProps.description props)) &&
            negb (String.eqb (typeof (ProductProps.description props))
                             "string"))
           ERR_DESCRIPTION errors in
  let errors :=
    pushIf (negb (isUndefined (ProductProps.category props)) &&
            negb (String.eqb (typeof (ProductProps.category props))
                             "string"))
           ERR_CATEGORY errors in
  let createdAt :=
    orElse (toDateOrUndefined (ProductProps.createdAt props))
           (Date_now now) in
  let updatedAt :=
    orElse (toDateOrUndefined (ProductProps.updatedAt props))
           createdAt in
  if (0 <? Z.of_nat (List.length errors)) then Failure errors
  else
    Success {|
      Product.id := ProductProps.id props;
      Product.name := ProductProps.name props;
      Product.pricePence := ProductProps.price props;
      Product.description := ProductProps.description props;
      Product.updatedAt := updatedAt
    |}.

(** The throwing validator. *)

Definition instanceofDate (v : JSValue) : bool :=
  match v with VDate _ => true | _ => false end.

(** [v.trim() === ''] on a value already known to be a string. *)
Definition trimIsEmpty (v : JSValue) : bool :=
  match v with
  | VString s => match trim s with [] => true | _ => false end
  | _ => false
  end.

(** [v < 0] and [!Number.isInteger(v)] on a value already known to be a
    number (the [typeof] test comes first and short-circuits). *)
Definition ltZero (v : JSValue) : bool :=
  match v with VNumber x => (x <? 0)%float | _ => false end.

Definition isInteger (v : JSValue) : bool :=
  match v with VNumber x => Number_isInteger x | _ => false end.

Definition getTimeIsNaN (v : JSValue) : bool :=
  match v with VDate d => getTime_isNaN d | _ => false end.

Definition validateProduct (params : CreateProductParams.t)
  : Completion unit :=
  if negb (truthy (CreateProductParams.id params)) ||
     negb (String.eqb (typeof (CreateProductParams.id params)) "string") ||
     trimIsEmpty (CreateProductParams.id params)
  then Throw (ProductError "id" "Product id must be a non-empty string.")
  else
  if negb (truthy (CreateProductParams.name params)) ||
     negb (String.eqb (typeof (CreateProductParams.name params)) "string") ||
     trimIsEmpty (CreateProductParams.name params)
  then Throw (ProductError "name"
                "Product name must be a non-empty string.")
  else
  if negb (String.eqb (typeof (CreateProductParams.pricePence params))
                      "number") ||
     ltZero (CreateProductParams.pricePence params) ||
     negb (isInteger (CreateProductParams.pricePence params))
  then Throw (ProductError "pricePence"
                "Product pricePence must be a non-negative integer.")
  else
  if negb (truthy (CreateProductParams.description params)) ||
     negb (String.eqb (typeof (CreateProductParams.description params))
                      "string") ||
     trimIsEmpty (CreateProductParams.description params)
  then Throw (ProductError "description"
                "Product description must be a non-empty string.")
  else
  if negb (instanceofDate (CreateProductParams.updatedAt params)) ||
     getTimeIsNaN (CreateProductParams.updatedAt params)
  then Throw (ProductError "updatedAt"
                "updatedAt must be a valid Date object.")
  else Return tt.
End ProductTs.

(** ** The run time's date arithmetic (ECMA-262, Date objects)

    [toISOString] and the [Date] constructor applied to a string are
    built-ins that the adapter calls; they are modelled after the
    language standard. *)

Module DateTime.

Definition msPerDay : Z := 86400000.
Definition msPerHour : Z := 3600000.
Definition msPerMinute : Z := 60000.
Definition msPerSecond : Z := 1000.

Definition Day (t : Z) : Z := t / msPerDay.
Definition TimeWithinDay (t : Z) : Z := t mod msPerDay.

Definition DaysInYear (y : Z) : Z :=
  if negb (y mod 4 =? 0) then 365
  else if negb (y mod 100 =? 0) then 366
  else if negb (y mod 400 =? 0) then 365
  else 366.

Definition DayFromYear (y : Z) : Z :=
  365 * (y - 1970) + (y - 1969) / 4 - (y - 1901) / 100 + (y - 1601) / 400.

Definition TimeFromYear (y : Z) : Z := msPerDay * DayFromYear y.

(** The largest [y] with [TimeFromYear y <= t]: an estimate from the
    mean length of a year, corrected by at most one. *)
Definition YearFromTime (t : Z) : Z :=
  let d := Day t in
  let y := 1970 + (400 * d) / 146097 in
  if d <? DayFromYear y then y - 1
  else if DayFromYear (y + 1) <=? d then y + 1
  else y.

Definition InLeapYear (t : Z) : Z :=
  if DaysInYear (YearFromTime t) =? 366 then 1 else 0.

Definition DayWithinYear (t : Z) : Z :=
  Day t - DayFromYear (YearFromTime t).

(** First day (within the year) of month [m], 0-based. *)
Definition monthStart (m leap : Z) : Z :=
  match m with
  | 0 => 0
  | 1 => 31
  | 2 => 59 + leap
  | 3 => 90 + leap
  | 4 => 120 + leap
  | 5 => 151 + leap
  | 6 => 181 + leap
  | 7 => 212 + leap
  | 8 => 243 + leap
  | 9 => 273 + leap
  | 10 => 304 + leap
  | 11 => 334 + leap
  | _ => 365 + leap
  end.

Definition MonthFromTime (t : Z) : Z :=
  let d := DayWithinYear t in
  let leap := InLeapYear t in
  if d <? 31 then 0
  else if d <? 59 + leap then 1
  else if d <? 90 + leap then 2
  else if d <? 120 + leap then 3
  else if d <? 151 + leap then 4
  else if d <? 181 + leap then 5
  else if d <? 212 + leap then 6
  else if d <? 243 + leap then 7
  else if d <? 273 + leap then 8
  else if d <? 304 + leap then 9
  else if d <? 334 + leap then 10
  else 11.

Definition DateFromTime (t : Z) : Z :=
  DayWithinYear t - monthStart (MonthFromTime t) (InLeapYear t) + 1.

Definition HourFromTime (t : Z) : Z := (t / msPerHour) mod 24.
Definition MinFromTime (t : Z) : Z := (t / msPerMinute) mod 60.
Definition SecFromTime (t : Z) : Z := (t / msPerSecond) mod 60.
Definition msFromTime (t : Z) : Z := t mod msPerSecond.

Definition MakeTime (hour min sec ms : Z) : Z :=
  hour * msPerHour + min * msPerMinute + sec * msPerSecond + ms.

(** [MakeDay] for a month in 0..11. *)
Definition MakeDay (year month date : Z) : Z :=
  DayFromYear year
  + monthStart month (if DaysInYear year =? 366 then 1 else 0)
  + date - 1.

Definition MakeDate (day time : Z) : Z := day * msPerDay + time.

Definition TimeClip (t : Z) : option Z :=
  if 8640000000000000 <? Z.abs t then None else Some t.

(** *** Date Time String Format *)

Definition digitChar (d : Z) : N := Z.to_N (48 + d).

(** [k] decimal digits of [n], most significant first, zero padded. *)
Fixpoint pad (k : nat) (n : Z) : jsstring :=
  match k with
  | O => []
  | S k' => digitChar ((n / 10 ^ Z.of_nat k') mod 10) :: pad k' n
  end.

Definition formatYear (y : Z) : jsstring :=
  if (0 <=? y) && (y <=? 9999) then pad 4 y
  else if y <? 0 then str "-" ++ pad 6 (- y)
  else str "+" ++ pad 6 y.

(** [YYYY-MM-DDTHH:mm:ss.sssZ], with an expanded year outside 0..9999. *)
Definition formatISO (t : Z) : jsstring :=
  formatYear (YearFromTime t) ++ str "-" ++
  pad 2 (MonthFromTime t + 1) ++ str "-" ++
  pad 2 (DateFromTime t) ++ str "T" ++
  pad 2 (HourFromTime t) ++ str ":" ++
  pad 2 (MinFromTime t) ++ str ":" ++
  pad 2 (SecFromTime t) ++ str "." ++
  pad 3 (msFromTime t) ++ str "Z".

(** [Date.prototype.toISOString]: a RangeError for an invalid date. *)
Definition toISOString (d : Date) : Completion jsstring :=
  match DateValue d with
  | None => Throw (RangeError "Invalid time value")
  | Some t => Return (formatISO t)
  end.

Definition digitVal (c : N) : option Z :=
  if ((48 <=? c) && (c <=? 57))%N then Some (Z.of_N c - 48) else None.

Fixpoint readDigits (k : nat) (acc : Z) (s : jsstring)
  : option (Z * jsstring) :=
  match k with
  | O => Some (acc, s)
  | S k' =>
      match s with
      | [] => None
      | c :: s' =>
          match digitVal c with
          | Some d => readDigits k' (10 * acc + d) s'
          | None => None
          end
      end
  end.

Definition expect (c : string) (s : jsstring) : option jsstring :=
  match str c, s with
  | [c0], c1 :: s' => if N.eqb c0 c1 then Some s' else None
  | _, _ => None
  end.

Definition readYear (s : jsstring) : option (Z * jsstring) :=
  match expect "+" s, expect "-" s with
  | Some s', _ => readDigits 6 0 s'
  | None, Some s' =>
      match readDigits 6 0 s' with
      | Some (y, s'') => if y =? 0 then None else Some (- y, s'')
      | None => None
      end
  | None, None => readDigits 4 0 s
  end.

(** The complete UTC form of the Date Time String Format, the form
    that [toISOString] emits.  Other strings (shorter forms, offsets,
    implementation-specific formats) are not modelled and yield NaN
    here. *)
Definition parseISO (s : jsstring) : option Z :=
  '(year, s) ← readYear s;
  s ← expect "-" s;
  '(month, s) ← readDigits 2 0 s;
  s ← expect "-" s;
  '(date, s) ← readDigits 2 0 s;
  s ← expect "T" s;
  '(hour, s) ← readDigits 2 0 s;
  s ← expect ":" s;
  '(min, s) ← readDigits 2 0 s;
  s ← expect ":" s;
  '(sec, s) ← readDigits 2 0 s;
  s ← expect "." s;
  '(ms, s) ← readDigits 3 0 s;
  s ← expect "Z" s;
  match s with
  | [] =>
      if (1 <=? month) && (month <=? 12) && (1 <=? date) && (date <=? 31)
         && (hour <=? 24) && (min <=? 59) && (sec <=? 59)
         && ((hour <? 24) || ((min =? 0) && (sec =? 0) && (ms =? 0)))
      then TimeClip (MakeDate (MakeDay year (month - 1) date)
                              (MakeTime hour min sec ms))
      else None
  | _ => None
  end.

(** [new Date(s)] for a string [s]. *)
Definition Date_ofString (s : jsstring) : Date := mkDate (parseISO s).

End DateTime.

(** ** [src/domain/product-repo.ts] and the Cosmos adapter *)

(** Asynchronous methods run against the backing store: a computation
    takes the store's state and either returns a value or rejects with a
    thrown value, leaving a new state. *)
Definition Async (S A : Type) : Type := S -> Completion A * S.

Definition ret {S A : Type} (a : A) : Async S A := fun s => (Return a, s).

Definition throw {S A : Type} (e : Thrown) : Async S A :=
  fun s => (Throw e, s).

Definition await {S A B : Type} (m : Async S A) (k : A -> Async S B)
  : Async S B :=
  fun s =>
    match m s with
    | (Return a, s') => k a s'
    | (Throw e, s') => (Throw e, s')
    end.

Definition tryCatch {S A : Type} (body : Async S A)
  (handler : Thrown -> Async S A) : Async S A :=
  fun s =>
    match body s with
    | (Return a, s') => (Return a, s')
    | (Throw e, s') => handler e s'
    end.

Definition liftCompletion {S A : Type} (c : Completion A) : Async S A :=
  fun s => (c, s).

#[export] Instance Async_ret {S : Type} : MRet (Async S) :=
  fun A a => ret a.
#[export] Instance Async_bind {S : Type} : MBind (Async S) :=
  fun A B k m => await m k.

Module ProductRepo.
(** The repository interface over a store with states [S]. *)
Class t (S : Type) : Type := {
  getById : jsstring -> Async S (option ProductTs.Product.t);
  list : Async S (list ProductTs.Product.t);
  save : ProductTs.Product.t -> Async S ProductTs.Product.t;
  delete : jsstring -> Async S unit
}.
End ProductRepo.

Module CosmosProductRepo.
Import ProductTs.

(** Internal DTO: the shape stored in the Cosmos container. *)
Module ProductDTO.
Record t : Type := mk {
  id : JSValue;
  name : JSValue;
  pricePence : JSValue;
  description : JSValue;
  updatedAt : jsstring;       (* ISO string in storage *)
  _etag : JSValue;
  _ts : JSValue
}.
End ProductDTO.

(** The part of the SDK's [Container] that the adapter uses.
    [item_read id] is [container.item(id).read()], giving the
    [resource] of the response; [item_delete id] is
    [container.item(id).delete()]; [items_upsert] and
    [items_readAll_fetchAll] are the calls on [container.items]. *)
Class Container (S : Type) : Type := {
  item_read : jsstring -> Async S (option ProductDTO.t);
  item_delete : jsstring -> Async S unit;
  items_upsert : ProductDTO.t -> Async S (option ProductDTO.t);
  items_readAll_fetchAll : Async S (list ProductDTO.t)
}.

(** [err?.code] and [err?.statusCode]. *)
Definition err_code (err : Thrown) : JSValue :=
  match err with ErrorObject c _ _ => c | _ => VUndefined end.

Definition err_statusCode (err : Thrown) : JSValue :=
  match err with ErrorObject _ sc _ => sc | _ => VUndefined end.

(** [v === 404]. *)
Definition is404 (v : JSValue) : bool :=
  match v with VNumber x => (x =? 404)%float | _ => false end.

Definition toDTO (product : Product.t) : Completion ProductDTO.t :=
  match DateTime.toISOString (Product.updatedAt product) with
  | Throw e => Throw e
  | Return iso =>
      Return {|
        ProductDTO.id := Product.id product;
        ProductDTO.name := Product.name product;
        ProductDTO.pricePence := Product.pricePence product;
        ProductDTO.description := Product.description product;
        ProductDTO.updatedAt := iso;
        ProductDTO._etag := VUndefined;
        ProductDTO._ts := VUndefined
      |}
  end.

Definition toDomain (dto : ProductDTO.t) : Product.t :=
  {|
    Product.id := ProductDTO.id dto;
    Product.name := ProductDTO.name dto;
    Product.pricePence := ProductDTO.pricePence dto;
    Product.description := ProductDTO.description dto;
    Product.updatedAt := DateTime.Date_ofString (ProductDTO.updatedAt dto)
  |}.

Section Repo.
Context {S : Type} `{Container S}.

Definition getById (id : jsstring) : Async S (option Product.t) :=
  tryCatch
    (resource ← item_read id;
     match resource with
     | None => ret None
     | Some resource => ret (Some (toDomain resource))
     end)
    (fun err =>
       (* Cosmos SDK throws when not found; null for 404-like cases. *)
       if is404 (err_code err) || is404 (err_statusCode err)
       then ret None
       else throw err).

Definition list : Async S (list Product.t) :=
  resources ← items_readAll_fetchAll;
  ret (map toDomain resources).

Definition save (product : Product.t) : Async S Product.t :=
  dto ← liftCompletion (toDTO product);
  (* use upsert so caller can create or update with same method *)
  resource ← items_upsert dto;
  match resource with
  | None => ret product
  | Some resource => ret (toDomain resource)
  end.

Definition delete (id : jsstring) : Async S unit :=
  tryCatch
    (item_delete id)
    (fun err =>
       (* ignore not found *)
       if is404 (err_code err) || is404 (err_statusCode err)
       then ret tt
       else throw err).

#[export] Instance CosmosProductRepo_impl : ProductRepo.t S := {|
  ProductRepo.getById := getById;
  ProductRepo.list := list;
  ProductRepo.save := save;
  ProductRepo.delete := delete
|}.
End Repo.

End CosmosProductRepo.

(** ** A reference backing store

    The SDK and the database are outside the repository.  For the
    properties that speak of the store's contents, the container is taken
    to be a keyed collection of documents that behaves as the adapter's
    comments expect of Cosmos: upsert stores the document under its id and
    returns it with the server's metadata; reading or deleting a missing
    id signals not-found (a 404). *)

Module MemContainer.
Import CosmosProductRepo.

Record State : Type := mkState {
  docs : gmap jsstring ProductDTO.t;
  (** does [read] of a missing id throw (older SDKs) or answer with an
      empty [resource]? *)
  readThrowsOnMissing : bool;
  (** the server's clock, for [_ts] and [_etag] *)
  serverTime : Z
}.

Definition notFound : Thrown :=
  ErrorObject (VNumber 404) VUndefined (str "NotFound").

Definition badRequest : Thrown :=
  ErrorObject (VNumber 400) VUndefined (str "BadRequest").

Definition stamp (st : State) (dto : ProductDTO.t) : ProductDTO.t :=
  {|
    ProductDTO.id := ProductDTO.id dto;
    ProductDTO.name := ProductDTO.name dto;
    ProductDTO.pricePence := ProductDTO.pricePence dto;
    ProductDTO.description := ProductDTO.description dto;
    ProductDTO.updatedAt := ProductDTO.updatedAt dto;
    ProductDTO._etag := VString (DateTime.pad 8 (serverTime st));
    ProductDTO._ts :=
      VNumber (PrimFloat.of_uint63 (Uint63.of_Z (serverTime st)))
  |}.

Definition read (id : jsstring) : Async State (option ProductDTO.t) :=
  fun st =>
    match docs st !! id with
    | Some dto => (Return (Some dto), st)
    | None =>
        if readThrowsOnMissing st then (Throw notFound, st)
        else (Return None, st)
    end.

Definition remove (id : jsstring) : Async State unit :=
  fun st =>
    match docs st !! id with
    | Some _ =>
        (Return tt,
         mkState (base.delete id (docs st)) (readThrowsOnMissing st)
                 (serverTime st + 1))
    | None => (Throw notFound, st)
    end.

Definition upsert (dto : ProductDTO.t)
  : Async State (option ProductDTO.t) :=
  fun st =>
    match ProductDTO.id dto with
    | VString key =>
        let stored := stamp st dto in
        (Return (Some stored),
         mkState (<[key := stored]> (docs st)) (readThrowsOnMissing st)
                 (serverTime st + 1))
    | _ => (Throw badRequest, st)
    end.

Definition readAll : Async State (Datatypes.list ProductDTO.t) :=
  fun st => (Return (map snd (map_to_list (docs st))), st).

(** An empty container. *)
Definition empty (throws : bool) : State := mkState ∅ throws 0.

#[export] Instance container : Container State := {|
  item_read := read;
  item_delete := remove;
  items_upsert := upsert;
  items_readAll_fetchAll := readAll
|}.
End MemContainer.

(** ** A backend that is down

    Every call on the container rejects with the same thrown value. *)

Module FailingContainer.

Definition container (e : Thrown) : CosmosProductRepo.Container unit :=
  {|
    CosmosProductRepo.item_read := fun _ => throw e;
    CosmosProductRepo.item_delete := fun _ => throw e;
    CosmosProductRepo.items_upsert := fun _ => throw e;
    CosmosProductRepo.items_readAll_fetchAll := throw e
  |}.

(** An error object with [statusCode: 404] and no [code]. *)
Definition gone : Thrown :=
  ErrorObject VUndefined (VNumber 404%float) (str "Not Found").

(** An error object with [code: 500]. *)
Definition broken : Thrown :=
  ErrorObject (VNumber 500%float) VUndefined (str "Internal Server Error").

End FailingContainer.

(** ** The specification's vocabulary

    Predicates that follow the words of the specification, to be compared
    with what the code computes. *)

Module Spec.

(** Property read [o.k] on an object given by its own properties; a
    missing property reads as [undefined]. *)
Fixpoint getProp (o : list (string * JSValue)) (k : string) : JSValue :=
  match o with
  | [] => VUndefined
  | (k', v) :: o' => if String.eqb k k' then v else getProp o' k
  end.

(** "a string with at least one non-whitespace character" *)
Definition hasNonWhiteSpace (s : jsstring) : bool :=
  existsb (fun c => negb (isWhiteSpace c)) s.

Definition isNonBlankString (v : JSValue) : bool :=
  match v with VString s => hasNonWhiteSpace s | _ => false end.

(** "a finite number >= 0", read off the IEEE 754 class of the double:
    a zero of either sign, or a finite number with the sign bit clear. *)
Definition finiteNonNegative (x : float) : bool :=
  match Prim2SF x with
  | S754_zero _ => true
  | S754_finite s _ _ => negb s
  | S754_infinity _ | S754_nan => false
  end.

Definition isFiniteNonNegativeNumber (v : JSValue) : bool :=
  match v with VNumber x => finiteNonNegative x | _ => false end.

(** "if present, must be of string type" *)
Definition isOptionalString (v : JSValue) : bool :=
  match v with VUndefined | VString _ => true | _ => false end.

(** "a date value whose underlying instant is not NaN" *)
Definition isValidDate (v : JSValue) : bool :=
  match v with
  | VDate d => match DateValue d with Some _ => true | None => false end
  | _ => false
  end.

(** The five validation rules of the factory, in their enumeration
    order. *)
Inductive Rule : Type :=
| RuleId | RuleName | RulePrice | RuleDescription | RuleCategory.

Definition rules : list Rule :=
  [RuleId; RuleName; RulePrice; RuleDescription; RuleCategory].

Definition ruleHolds (r : Rule) (props : ProductProps.t) : bool :=
  match r with
  | RuleId => isNonBlankString (ProductProps.id props)
  | RuleName => isNonBlankString (ProductProps.name props)
  | RulePrice => isFiniteNonNegativeNumber (ProductProps.price props)
  | RuleDescription => isOptionalString (ProductProps.description props)
  | RuleCategory => isOptionalString (ProductProps.category props)
  end.

Definition ruleMessage (r : Rule) : string :=
  match r with
  | RuleId => ERR_ID
  | RuleName => ERR_NAME
  | RulePrice => ERR_PRICE
  | RuleDescription => ERR_DESCRIPTION
  | RuleCategory => ERR_CATEGORY
  end.

Definition violated (props : ProductProps.t) : list Rule :=
  filter (fun r => negb (ruleHolds r props)) rules.

(** The entity of the specification's data model, as an object: id,
    name, price, optional description and category, createdAt,
    updatedAt. *)
Definition entityOk (o : list (string * JSValue)) : bool :=
  isNonBlankString (getProp o "id") &&
  isNonBlankString (getProp o "name") &&
  isFiniteNonNegativeNumber (getProp o "price") &&
  isOptionalString (getProp o "description") &&
  isOptionalString (getProp o "category") &&
  isValidDate (getProp o "createdAt") &&
  isValidDate (getProp o "updatedAt").

(** "supplied valid date": the date, when the value is a valid one. *)
Definition suppliedDate (v : JSValue) : option Date :=
  match v with
  | VDate d => match DateValue d with Some _ => Some d | None => None end
  | _ => None
  end.

(** The double [x] denotes the integer [n]. *)
Definition denotesInteger (x : float) (n : Z) : Prop :=
  match Prim2SF x with
  | S754_zero _ => n = 0
  | S754_finite s m e =>
      let sm := if s then Z.neg m else Z.pos m in
      if 0 <=? e then n = sm * 2 ^ e else sm = n * 2 ^ (- e)
  | S754_infinity _ | S754_nan => False
  end.

Definition isNonNegativeInteger (v : JSValue) : Prop :=
  exists x n, v = VNumber x /\ 0 <= n /\ denotesInteger x n.

(** "a non-empty string", with no trimming. *)
Definition isNonEmptyStringNoTrim (v : JSValue) : bool :=
  match v with VString (_ :: _) => true | _ => false end.

(** "a number that is finite and >= 0", in the language's own terms. *)
Definition priceAccepted (v : JSValue) : Prop :=
  exists x, v = VNumber x /\
            PrimFloat.is_finite x = true /\ (0 <=? x)%float = true.

(** "NaN, Infinity, -Infinity, any negative number, or a non-number
    value" *)
Definition priceRejected (v : JSValue) : Prop :=
  v = VNumber nan \/ v = VNumber infinity \/ v = VNumber neg_infinity \/
  (exists x, v = VNumber x /\ (x <? 0)%float = true) \/
  typeof v <> "number"%string.

(** Time values of [Date] objects are clipped to the range of the
    language (plus or minus 8.64e15 ms). *)
Definition Date_wf (d : Date) : bool :=
  match DateValue d with
  | Some t => Z.abs t <=? 8640000000000000
  | None => true
  end.

Definition Value_wf (v : JSValue) : bool :=
  match v with VDate d => Date_wf d | _ => true end.

(** An entity is a value built by the factory of
    [src/domain/product.ts] (from dates within the language's
    range). *)
Definition isEntity (p : ProductTs.Product.t) : Prop :=
  exists props now,
    Value_wf (ProductProps.createdAt props) = true /\
    Value_wf (ProductProps.updatedAt props) = true /\
    Date_wf (Date_now now) = true /\
    ProductTs.createProduct props now = ProductTs.Success p.

(** "the backend signals not-found (a 404 condition)": the value thrown
    is an error object whose [code], or whose [statusCode], is the number
    404. *)
Definition signalsNotFound (e : Thrown) : Prop :=
  exists code statusCode message,
    e = ErrorObject code statusCode message /\
    (code = VNumber 404%float \/ statusCode = VNumber 404%float).

End Spec.

(** The conditions under which [validateProduct] is to return. *)
Module ValidatorSpec.
Import ProductTs.

Definition idOk (q : CreateProductParams.t) : Prop :=
  Spec.isNonBlankString (CreateProductParams.id q) = true.
Definition nameOk (q : CreateProductParams.t) : Prop :=
  Spec.isNonBlankString (CreateProductParams.name q) = true.
Definition pricePenceOk (q : CreateProductParams.t) : Prop :=
  Spec.isNonNegativeInteger (CreateProductParams.pricePence q).
Definition descriptionOk (q : CreateProductParams.t) : Prop :=
  Spec.isNonBlankString (CreateProductParams.description q) = true.
Definition updatedAtOk (q : CreateProductParams.t) : Prop :=
  Spec.isValidDate (CreateProductParams.updatedAt q) = true.

Definition idError : Thrown :=
  ProductError "id" "Product id must be a non-empty string.".
Definition nameError : Thrown :=
  ProductError "name" "Product name must be a non-empty string.".
Definition pricePenceError : Thrown :=
  ProductError "pricePence"
    "Product pricePence must be a non-negative integer.".
Definition descriptionError : Thrown :=
  ProductError "description"
    "Product description must be a non-empty string.".
Definition updatedAtError : Thrown :=
  ProductError "updatedAt" "updatedAt must be a valid Date object.".
End ValidatorSpec.

(** ** Inputs used in the examples *)

Definition withId (props : ProductProps.t) (v : JSValue) : ProductProps.t :=
  {|
    ProductProps.id := v;
    ProductProps.name := ProductProps.name props;
    ProductProps.price := ProductProps.price props;
    ProductProps.description := ProductProps.description props;
    ProductProps.category := ProductProps.category props;
    ProductProps.createdAt := ProductProps.createdAt props;
    ProductProps.updatedAt := ProductProps.updatedAt props
  |}.

Definition withName (props : ProductProps.t) (v : JSValue)
  : ProductProps.t :=
  {|
    ProductProps.id := ProductProps.id props;
    ProductProps.name := v;
    ProductProps.price := ProductProps.price props;
    ProductProps.description := ProductProps.description props;
    ProductProps.category := ProductProps.category props;
    ProductProps.createdAt := ProductProps.createdAt props;
    ProductProps.updatedAt := ProductProps.updatedAt props
  |}.

Definition withPrice (props : ProductProps.t) (v : JSValue)
  : ProductProps.t :=
  {|
    ProductProps.id := ProductProps.id props;
    ProductProps.name := ProductProps.name props;
    ProductProps.price := v;
    ProductProps.description := ProductProps.description props;
    ProductProps.category := ProductProps.category props;
    ProductProps.createdAt := ProductProps.createdAt props;
    ProductProps.updatedAt := ProductProps.updatedAt props
  |}.

Definition withUpdatedAt (props : ProductProps.t) (v : JSValue)
  : ProductProps.t :=
  {|
    ProductProps.id := ProductProps.id props;
    ProductProps.name := ProductProps.name props;
    ProductProps.price := ProductProps.price props;
    ProductProps.description := ProductProps.description props;
    ProductProps.category := ProductProps.category props;
    ProductProps.createdAt := ProductProps.createdAt props;
    ProductProps.updatedAt := v
  |}.

(** [{id: "p1", name: "Widget", price: 9.99}] *)
Definition widget : ProductProps.t :=
  {|
    ProductProps.id := VString (str "p1");
    ProductProps.name := VString (str "Widget");
    ProductProps.price := VNumber 0x1.3fae147ae147bp+3%float;
    ProductProps.description := VUndefined;
    ProductProps.category := VUndefined;
    ProductProps.createdAt := VUndefined;
    ProductProps.updatedAt := VUndefined
  |}.

(** [{id: "p1", name: "Widget", price: 9.99, updatedAt: new Date(1000)}] *)
Definition widgetUpdated : ProductProps.t :=
  withUpdatedAt widget (VDate (mkDate (Some 1000))).

(** [{id: "", name: "Widget", price: -1}] *)
Definition badWidget : ProductProps.t :=
  withPrice (withId widget (VString (str ""))) (VNumber (-1)%float).

(** [{id: "p1", name: "Widget", pricePence: 999, description: "   ",
      updatedAt: new Date(1000)}] *)
Definition blankDescription : ProductTs.CreateProductParams.t :=
  {|
    ProductTs.CreateProductParams.id := VString (str "p1");
    ProductTs.CreateProductParams.name := VString (str "Widget");
    ProductTs.CreateProductParams.pricePence := VNumber 999%float;
    ProductTs.CreateProductParams.description := VString (str "   ");
    ProductTs.CreateProductParams.updatedAt := VDate (mkDate (Some 1000))
  |}.

(** The same with [description: "A widget"]. *)
Definition goodParams : ProductTs.CreateProductParams.t :=
  {|
    ProductTs.CreateProductParams.id := VString (str "p1");
    ProductTs.CreateProductParams.name := VString (str "Widget");
    ProductTs.CreateProductParams.pricePence := VNumber 999%float;
    ProductTs.CreateProductParams.description := VString (str "A widget");
    ProductTs.CreateProductParams.updatedAt := VDate (mkDate (Some 1000))
  |}.

(** The entity built from [widget] at time 5000. *)
Definition widgetEntity : ProductTs.Product.t :=
  {|
    ProductTs.Product.id := VString (str "p1");
    ProductTs.Product.name := VString (str "Widget");
    ProductTs.Product.pricePence := VNumber 0x1.3fae147ae147bp+3%float;
    ProductTs.Product.description := VUndefined;
    ProductTs.Product.updatedAt := mkDate (Some 5000)
  |}.

(** [{id: "p1", name: "Widget", price: 5, createdAt: new Date(9000),
      updatedAt: new Date(1000)}] *)
Definition widgetBackdated : ProductProps.t :=
  {|
    ProductProps.id := VString (str "p1");
    ProductProps.name := VString (str "Widget");
    ProductProps.price := VNumber 5%float;
    ProductProps.description := VUndefined;
    ProductProps.category := VUndefined;
    ProductProps.createdAt := VDate (mkDate (Some 9000));
    ProductProps.updatedAt := VDate (mkDate (Some 1000))
  |}.

(** The document that [toDTO] writes for [widgetEntity]. *)
Definition widgetDTO : CosmosProductRepo.ProductDTO.t :=
  {|
    CosmosProductRepo.ProductDTO.id := VString (str "p1");
    CosmosProductRepo.ProductDTO.name := VString (str "Widget");
    CosmosProductRepo.ProductDTO.pricePence :=
      VNumber 0x1.3fae147ae147bp+3%float;
    CosmosProductRepo.ProductDTO.description := VUndefined;
    CosmosProductRepo.ProductDTO.updatedAt :=
      str "1970-01-01T00:00:05.000Z";
    CosmosProductRepo.ProductDTO._etag := VUndefined;
    CosmosProductRepo.ProductDTO._ts := VUndefined
  |}.

(** ** Views between the declared shapes *)

Module Views.

(** The entity of [unnamed/part_000] restricted to the properties that
    the entity of [src/domain/product.ts] has, [price] being read as
    [pricePence]. *)
Definition restrict (p : Part000.Product.t) : ProductTs.Product.t :=
  {|
    ProductTs.Product.id := Part000.Product.id p;
    ProductTs.Product.name := Part000.Product.name p;
    ProductTs.Product.pricePence := Part000.Product.price p;
    ProductTs.Product.description := Part000.Product.description p;
    ProductTs.Product.updatedAt := Part000.Product.updatedAt p
  |}.

(** [Product] and [CreateProductParams] are declared with the same
    properties: a product passed where the parameters are expected. *)
Definition asParams (p : ProductTs.Product.t)
  : ProductTs.CreateProductParams.t :=
  {|
    ProductTs.CreateProductParams.id := ProductTs.Product.id p;
    ProductTs.CreateProductParams.name := ProductTs.Product.name p;
    ProductTs.CreateProductParams.pricePence :=
      ProductTs.Product.pricePence p;
    ProductTs.CreateProductParams.description :=
      ProductTs.Product.description p;
    ProductTs.CreateProductParams.updatedAt :=
      VDate (ProductTs.Product.updatedAt p)
  |}.

(** The parameters handed to the factory:
    [{id, name, price: pricePence, description, updatedAt}]. *)
Definition asProps (q : ProductTs.CreateProductParams.t) : ProductProps.t :=
  {|
    ProductProps.id := ProductTs.CreateProductParams.id q;
    ProductProps.name := ProductTs.CreateProductParams.name q;
    ProductProps.price := ProductTs.CreateProductParams.pricePence q;
    ProductProps.description := ProductTs.CreateProductParams.description q;
    ProductProps.category := VUndefined;
    ProductProps.createdAt := VUndefined;
    ProductProps.updatedAt := ProductTs.CreateProductParams.updatedAt q
  |}.

End Views.

(** ** The adapter's constructor

    The SDK's client and container are opaque: [newCosmosClient] stands
    for [new CosmosClient(options)] and [database_container c d k] for
    [c.database(d).container(k)].  An options object is a finite map from
    property names to values. *)

Module CosmosProductRepoOptions.
Section SDK.
Variables CosmosClient ContainerRef : Type.
Variable newCosmosClient : gmap jsstring JSValue -> CosmosClient.
Variable database_container :
  CosmosClient -> jsstring -> jsstring -> ContainerRef.

Record t : Type := mk {
  endpoint : JSValue;
  key : JSValue;
  databaseId : jsstring;
  containerId : jsstring;
  client : option CosmosClient;
  clientOptions : option (gmap jsstring JSValue)
}.

(** [{ endpoint: opts.endpoint, key: opts.key, ...opts.clientOptions }]:
    the properties spread last win; spreading [undefined] adds nothing. *)
Definition newClientOptions (opts : t) : gmap jsstring JSValue :=
  default ∅ (clientOptions opts)
  ∪ <[str "key" := key opts]> (<[str "endpoint" := endpoint opts]> ∅).

Definition constructor (opts : t) : ContainerRef :=
  let client :=
    match client opts with
    | Some c => c
    | None => newCosmosClient (newClientOptions opts)
    end in
  database_container client (databaseId opts) (containerId opts).

End SDK.

Arguments mk {CosmosClient}.
Arguments endpoint {CosmosClient}.
Arguments key {CosmosClient}.
Arguments databaseId {CosmosClient}.
Arguments containerId {CosmosClient}.
Arguments client {CosmosClient}.
Arguments clientOptions {CosmosClient}.
Arguments newClientOptions {CosmosClient}.
Arguments constructor {CosmosClient ContainerRef}.
End CosmosProductRepoOptions.

(** ** Runs of the adapter on the reference store *)

Module MemRepo.

(** The four operations of the repository. *)
Inductive Op : Type :=
| Save (product : ProductTs.Product.t)
| Delete (id : jsstring)
| GetById (id : jsstring)
| List.

(** The store after an operation of the adapter, whatever it returned. *)
Definition exec (st : MemContainer.State) (op : Op) : MemContainer.State :=
  match op with
  | Save product =>
      snd (@CosmosProductRepo.save _ MemContainer.container product st)
  | Delete id =>
      snd (@CosmosProductRepo.delete _ MemContainer.container id st)
  | GetById id =>
      snd (@CosmosProductRepo.getById _ MemContainer.container id st)
  | List => snd (@CosmosProductRepo.list _ MemContainer.container st)
  end.

Definition execAll (ops : list Op) (st : MemContainer.State)
  : MemContainer.State :=
  fold_left exec ops st.

(** Every document is stored under its own id. *)
Definition keyed (st : MemContainer.State) : Prop :=
  forall k dto,
    MemContainer.docs st !! k = Some dto ->
    CosmosProductRepo.ProductDTO.id dto = VString k.

(** Every document carries a date as [toISOString] writes it, for a
    time value within the language's range. *)
Definition canonical (st : MemContainer.State) : Prop :=
  forall k dto,
    MemContainer.docs st !! k = Some dto ->
    exists t,
      Z.abs t <= 8640000000000000 /\
      CosmosProductRepo.ProductDTO.updatedAt dto = DateTime.formatISO t.

(** The products handed to [save] are [Date]s of the language: their
    time values are within its range. *)
Definition opWf (op : Op) : Prop :=
  match op with
  | Save product =>
      Spec.Date_wf (ProductTs.Product.updatedAt product) = true
  | _ => True
  end.

End MemRepo.

(** ** Proof automation *)

(** Case analysis on the outcome of the five rules of the factory. *)
Ltac case_rules props :=
  destruct (Spec.isNonBlankString (ProductProps.id props));
  destruct (Spec.isNonBlankString (ProductProps.name props));
  destruct (Spec.isFiniteNonNegativeNumber (ProductProps.price props));
  destruct (Spec.isOptionalString (ProductProps.description props));
  destruct (Spec.isOptionalString (ProductProps.category props)).

(** Unfold the adapter's methods down to the container's calls. *)
Ltac run_async :=
  unfold CosmosProductRepo.getById, CosmosProductRepo.delete,
    CosmosProductRepo.save, tryCatch, liftCompletion, mbind,
    Async_bind, await, ret, throw.

(** * Properties *)

(** ** Trimming *)

Lemma forallb_trimStart (s : jsstring) :
  forallb isWhiteSpace (trimStart s) = forallb isWhiteSpace s.
Proof.
  induction s as [|c s IH]; simpl; [reflexivity|].
  destruct (isWhiteSpace c) eqn:Hc; simpl.
  - exact IH.
  - now rewrite Hc.
Qed.

Lemma trimStart_nil (s : jsstring) :
  trimStart s = [] <-> forallb isWhiteSpace s = true.
Proof.
  induction s as [|c s IH]; simpl; [tauto|].
  destruct (isWhiteSpace c); simpl; [exact IH|].
  split; discriminate.
Qed.

Lemma forallb_rev_eq {A : Type} (f : A -> bool) (l : list A) :
  forallb f (rev l) = forallb f l.
Proof.
  induction l as [|a l IH]; simpl; [reflexivity|].
  rewrite forallb_app, IH. simpl. rewrite andb_true_r. apply andb_comm.
Qed.

Lemma rev_nil_iff {A : Type} (l : list A) : rev l = [] <-> l = [].
Proof.
  split; intros E; [|now subst].
  rewrite <- (rev_involutive l), E. reflexivity.
Qed.

Lemma trim_nil (s : jsstring) :
  trim s = [] <-> forallb isWhiteSpace s = true.
Proof.
  unfold trim, trimEnd.
  etransitivity; [apply rev_nil_iff|].
  etransitivity; [apply trimStart_nil|].
  now rewrite forallb_rev_eq, forallb_trimStart.
Qed.

Lemma hasNonWhiteSpace_negb (s : jsstring) :
  Spec.hasNonWhiteSpace s = negb (forallb isWhiteSpace s).
Proof.
  unfold Spec.hasNonWhiteSpace.
  induction s as [|c s IH]; simpl; [reflexivity|].
  rewrite IH. now destruct (isWhiteSpace c).
Qed.

Lemma trim_length_pos (s : jsstring) :
  (0 <? Z.of_nat (List.length (trim s))) = Spec.hasNonWhiteSpace s.
Proof.
  rewrite hasNonWhiteSpace_negb.
  destruct (forallb isWhiteSpace s) eqn:E.
  - apply trim_nil in E. rewrite E. reflexivity.
  - destruct (trim s) eqn:T.
    + apply trim_nil in T. congruence.
    + simpl. apply Z.ltb_lt. lia.
Qed.

Lemma isNonEmptyString_spec (v : JSValue) :
  isNonEmptyString v = Spec.isNonBlankString v.
Proof.
  destruct v; try reflexivity.
  unfold isNonEmptyString. simpl. apply trim_length_pos.
Qed.

(** ** Doubles *)

Lemma SFcompare_refl_finite (s : bool) (m : positive) (e : Z) :
  SFcompare (S754_finite s m e) (S754_finite s m e) = Some Eq.
Proof.
  simpl. rewrite Z.compare_refl.
  change (Pos.compare_cont Eq m m) with (Pos.compare m m).
  rewrite Pos.compare_refl. now destruct s.
Qed.

Lemma Prim2SF_zero : Prim2SF 0%float = S754_zero false.
Proof. reflexivity. Qed.

Lemma Prim2SF_infinity : Prim2SF infinity = S754_infinity false.
Proof. reflexivity. Qed.

Lemma is_nan_spec (x : float) :
  PrimFloat.is_nan x =
  match Prim2SF x with S754_nan => true | _ => false end.
Proof.
  unfold PrimFloat.is_nan. rewrite eqb_spec. unfold SFeqb.
  destruct (Prim2SF x) as [s|s| |s m e].
  - reflexivity.
  - now destruct s.
  - reflexivity.
  - now rewrite SFcompare_refl_finite.
Qed.

Lemma is_infinity_spec (x : float) :
  PrimFloat.is_infinity x =
  match Prim2SF x with S754_infinity _ => true | _ => false end.
Proof.
  unfold PrimFloat.is_infinity.
  rewrite eqb_spec, abs_spec, Prim2SF_infinity. unfold SFeqb.
  destruct (Prim2SF x) as [s|s| |s m e]; reflexivity.
Qed.

Lemma leb_zero_spec (x : float) :
  (0 <=? x)%float =
  match Prim2SF x with
  | S754_zero _ => true
  | S754_infinity s | S754_finite s _ _ => negb s
  | S754_nan => false
  end.
Proof.
  rewrite leb_spec, Prim2SF_zero. unfold SFleb.
  destruct (Prim2SF x) as [s|s| |s m e]; try reflexivity; now destruct s.
Qed.

Lemma ltb_zero_spec (x : float) :
  (x <? 0)%float =
  match Prim2SF x with
  | S754_infinity s | S754_finite s _ _ => s
  | S754_zero _ | S754_nan => false
  end.
Proof.
  rewrite ltb_spec, Prim2SF_zero. unfold SFltb.
  destruct (Prim2SF x) as [s|s| |s m e]; try reflexivity; now destruct s.
Qed.

Lemma finite_nonneg_spec (x : float) :
  Number_isFinite x && (0 <=? x)%float = Spec.finiteNonNegative x.
Proof.
  unfold Number_isFinite, PrimFloat.is_finite, Spec.finiteNonNegative.
  rewrite is_nan_spec, is_infinity_spec, leb_zero_spec.
  destruct (Prim2SF x) as [s|s| |s m e]; reflexivity.
Qed.

Lemma isNonNegativeNumber_spec (v : JSValue) :
  isNonNegativeNumber v = Spec.isFiniteNonNegativeNumber v.
Proof.
  destruct v; try reflexivity.
  unfold isNonNegativeNumber. simpl. apply finite_nonneg_spec.
Qed.

Lemma optionalString_spec (v : JSValue) :
  negb (isUndefined v) && negb (String.eqb (typeof v) "string")
  = negb (Spec.isOptionalString v).
Proof. destruct v; reflexivity. Qed.

(** ** The factory: validation *)

Lemma Part000_createProduct_eq (props : ProductProps.t) (now : Z) :
  Part000.createProduct props now =
  match Spec.violated props with
  | [] =>
      let createdAt :=
        orElse (toDateOrUndefined (ProductProps.createdAt props))
               (Date_now now) in
      Part000.Success
        (Part000.Product.mk
           (ProductProps.id props) (ProductProps.name props)
           (ProductProps.price props) (ProductProps.description props)
           (ProductProps.category props) createdAt
           (orElse (toDateOrUndefined (ProductProps.updatedAt props))
                   createdAt))
  | v => Part000.Failure (map Spec.ruleMessage v)
  end.
Proof.
  unfold Part000.createProduct, Spec.violated, Spec.rules. simpl.
  rewrite !isNonEmptyString_spec, isNonNegativeNumber_spec,
    !optionalString_spec.
  case_rules props; reflexivity.
Qed.

Lemma ProductTs_createProduct_eq (props : ProductProps.t) (now : Z) :
  ProductTs.createProduct props now =
  match Spec.violated props with
  | [] =>
      let createdAt :=
        orElse (toDateOrUndefined (ProductProps.createdAt props))
               (Date_now now) in
      ProductTs.Success
        (ProductTs.Product.mk
           (ProductProps.id props) (ProductProps.name props)
           (ProductProps.price props) (ProductProps.description props)
           (orElse (toDateOrUndefined (ProductProps.updatedAt props))
                   createdAt))
  | v => ProductTs.Failure (map Spec.ruleMessage v)
  end.
Proof.
  unfold ProductTs.createProduct, Spec.violated, Spec.rules. simpl.
  rewrite !isNonEmptyString_spec, isNonNegativeNumber_spec,
    !optionalString_spec.
  case_rules props; reflexivity.
Qed.

Lemma violated_nil (props : ProductProps.t) :
  Spec.violated props = [] <->
  forall r, Spec.ruleHolds r props = true.
Proof.
  unfold Spec.violated, Spec.rules. simpl. split.
  - intros E r. revert E.
    destruct r; simpl; case_rules props; simpl;
      try discriminate; reflexivity.
  - intros A.
    pose proof (A Spec.RuleId) as A1. pose proof (A Spec.RuleName) as A2.
    pose proof (A Spec.RulePrice) as A3.
    pose proof (A Spec.RuleDescription) as A4.
    pose proof (A Spec.RuleCategory) as A5.
    simpl in A1, A2, A3, A4, A5. rewrite A1, A2, A3, A4, A5. reflexivity.
Qed.

Lemma message_in_violated (r : Spec.Rule) (props : ProductProps.t) :
  In (Spec.ruleMessage r) (map Spec.ruleMessage (Spec.violated props)) <->
  Spec.ruleHolds r props = false.
Proof.
  unfold Spec.violated, Spec.rules. simpl.
  destruct r; simpl; case_rules props; simpl;
    unfold ERR_ID, ERR_NAME, ERR_PRICE, ERR_DESCRIPTION, ERR_CATEGORY;
    intuition discriminate.
Qed.

(** C2: the factory checks all five rules in one call.  A failure
    carries exactly the messages of the violated rules, one each, in the
    order of the rules; a success is returned exactly when no rule is
    violated; a failure carries no entity (it is a list of messages). *)
Theorem C2_all_violations_collected (props : ProductProps.t) (now : Z) :
  match Part000.createProduct props now with
  | Part000.Success _ => Spec.violated props = []
  | Part000.Failure errors =>
      Spec.violated props <> [] /\
      errors = map Spec.ruleMessage (Spec.violated props)
  end /\
  match ProductTs.createProduct props now with
  | ProductTs.Success _ => Spec.violated props = []
  | ProductTs.Failure errors =>
      Spec.violated props <> [] /\
      errors = map Spec.ruleMessage (Spec.violated props)
  end.
Proof.
  rewrite Part000_createProduct_eq, ProductTs_createProduct_eq.
  destruct (Spec.violated props); simpl; repeat split; congruence.
Qed.

(** C9: [createProduct({id: "", name: "Widget", price: -1})] fails with
    exactly two messages, id-required then price-must-be-non-negative;
    and for every input the error list follows the enumeration of the
    rules (id, name, price, description, category). *)
Theorem C9_example_two_errors (now : Z) :
  Part000.createProduct badWidget now
    = Part000.Failure [ERR_ID; ERR_PRICE] /\
  ProductTs.createProduct badWidget now
    = ProductTs.Failure [ERR_ID; ERR_PRICE] /\
  forall props,
    Part000.errorsOf (Part000.createProduct props now)
      = map Spec.ruleMessage
          (filter (fun r => negb (Spec.ruleHolds r props))
                  [Spec.RuleId; Spec.RuleName; Spec.RulePrice;
                   Spec.RuleDescription; Spec.RuleCategory]) /\
    ProductTs.errorsOf (ProductTs.createProduct props now)
      = map Spec.ruleMessage
          (filter (fun r => negb (Spec.ruleHolds r props))
                  [Spec.RuleId; Spec.RuleName; Spec.RulePrice;
                   Spec.RuleDescription; Spec.RuleCategory]).
Proof.
  split; [reflexivity|]. split; [reflexivity|].
  intros props.
  rewrite Part000_createProduct_eq, ProductTs_createProduct_eq.
  fold Spec.rules. fold (Spec.violated props).
  destruct (Spec.violated props); split; reflexivity.
Qed.

Lemma violated_withId_blank (props : ProductProps.t) (ws : jsstring) :
  forallb isWhiteSpace ws = true ->
  exists rest,
    Spec.violated (withId props (VString ws)) = Spec.RuleId :: rest /\
    Spec.violated (withId props (VString [])) = Spec.RuleId :: rest.
Proof.
  intros Hws. unfold Spec.violated, Spec.rules. simpl.
  rewrite hasNonWhiteSpace_negb, Hws. simpl. eexists. split; reflexivity.
Qed.

Lemma violated_withName_blank (props : ProductProps.t) (ws : jsstring) :
  forallb isWhiteSpace ws = true ->
  Spec.violated (withName props (VString ws))
    = Spec.violated (withName props (VString [])) /\
  In Spec.RuleName (Spec.violated (withName props (VString ws))).
Proof.
  intros Hws. unfold Spec.violated, Spec.rules. simpl.
  rewrite hasNonWhiteSpace_negb, Hws. simpl. split; [reflexivity|].
  destruct (Spec.isNonBlankString (ProductProps.id props)); simpl; auto.
Qed.

Lemma violated_cons_inv (props : ProductProps.t) (r : Spec.Rule) :
  In r (Spec.violated props) ->
  exists r0 rest, Spec.violated props = r0 :: rest.
Proof.
  destruct (Spec.violated props) as [|r0 rest]; [intros []|eauto].
Qed.

(** C7: an id or a name made of whitespace only is rejected exactly as
    the empty string is: the result is the same as for the empty string,
    it carries the message of that field, and it is a failure whatever
    the other fields are. *)
Theorem C7_whitespace_only_rejected
  (props : ProductProps.t) (now : Z) (ws : jsstring) :
  forallb isWhiteSpace ws = true ->
  (Part000.createProduct (withId props (VString ws)) now
     = Part000.createProduct (withId props (VString [])) now /\
   In ERR_ID
      (Part000.errorsOf
         (Part000.createProduct (withId props (VString ws)) now))) /\
  (Part000.createProduct (withName props (VString ws)) now
     = Part000.createProduct (withName props (VString [])) now /\
   In ERR_NAME
      (Part000.errorsOf
         (Part000.createProduct (withName props (VString ws)) now))) /\
  (ProductTs.createProduct (withId props (VString ws)) now
     = ProductTs.createProduct (withId props (VString [])) now /\
   In ERR_ID
      (ProductTs.errorsOf
         (ProductTs.createProduct (withId props (VString ws)) now))) /\
  (ProductTs.createProduct (withName props (VString ws)) now
     = ProductTs.createProduct (withName props (VString [])) now /\
   In ERR_NAME
      (ProductTs.errorsOf
         (ProductTs.createProduct (withName props (VString ws)) now))).
Proof.
  intros Hws.
  destruct (violated_withId_blank props ws Hws) as (rest & E1 & E2).
  destruct (violated_withName_blank props ws Hws) as (E3 & I3).
  destruct (violated_cons_inv _ _ I3) as (r0 & rest' & E4).
  rewrite !Part000_createProduct_eq, !ProductTs_createProduct_eq.
  rewrite <- E3, E1, E2. rewrite E4 in I3 |- *. simpl.
  repeat split; auto;
    change ERR_NAME with (Spec.ruleMessage Spec.RuleName);
    apply (in_map Spec.ruleMessage _ _ I3).
Qed.

Lemma C7_whitespace_only_rejected_witness :
  Part000.createProduct (withId widget (VString (str "   "))) 0
    = Part000.createProduct (withId widget (VString [])) 0 /\
  In ERR_ID
     (Part000.errorsOf
        (Part000.createProduct (withId widget (VString (str "   "))) 0)).
Proof.
  exact (proj1 (C7_whitespace_only_rejected widget 0 (str "   ") eq_refl)).
Defined.

Lemma priceAccepted_spec (v : JSValue) :
  Spec.priceAccepted v <-> Spec.isFiniteNonNegativeNumber v = true.
Proof.
  unfold Spec.priceAccepted. split.
  - intros (x & -> & F & G). simpl.
    rewrite <- finite_nonneg_spec. unfold Number_isFinite.
    now rewrite F, G.
  - destruct v; simpl; try discriminate. intros E.
    rewrite <- finite_nonneg_spec in E. unfold Number_isFinite in E.
    apply andb_true_iff in E. destruct E. eauto.
Qed.

Lemma priceRejected_not_accepted (v : JSValue) :
  Spec.priceRejected v -> ~ Spec.priceAccepted v.
Proof.
  intros R A. apply priceAccepted_spec in A.
  destruct R as [-> | [-> | [-> | [(x & -> & L) | T]]]];
    try discriminate A.
  - simpl in A. unfold Spec.finiteNonNegative in A.
    rewrite ltb_zero_spec in L.
    destruct (Prim2SF x) as [s|s| |s m e]; try discriminate;
      destruct s; discriminate.
  - destruct v; try discriminate A. now apply T.
Qed.

(** C8: the price rule accepts exactly the numbers that are finite and
    >= 0.  The price message is among the errors if and only if the price
    is not such a number; NaN, the infinities, negative numbers and
    non-numbers are rejected; the accepted numbers are the zeros and the
    finite doubles with a clear sign bit. *)
Theorem C8_price_rule (props : ProductProps.t) (now : Z) :
  (In ERR_PRICE (Part000.errorsOf (Part000.createProduct props now)) <->
   ~ Spec.priceAccepted (ProductProps.price props)) /\
  (In ERR_PRICE (ProductTs.errorsOf (ProductTs.createProduct props now)) <->
   ~ Spec.priceAccepted (ProductProps.price props)) /\
  (Spec.priceRejected (ProductProps.price props) ->
   In ERR_PRICE (Part000.errorsOf (Part000.createProduct props now)) /\
   In ERR_PRICE (ProductTs.errorsOf (ProductTs.createProduct props now))) /\
  (forall x, Spec.priceAccepted (VNumber x) <->
             Spec.finiteNonNegative x = true).
Proof.
  assert (P : In ERR_PRICE
                (Part000.errorsOf (Part000.createProduct props now)) <->
              ~ Spec.priceAccepted (ProductProps.price props)).
  { rewrite Part000_createProduct_eq, priceAccepted_spec.
    rewrite not_true_iff_false.
    rewrite <- (message_in_violated Spec.RulePrice props).
    destruct (Spec.violated props); simpl; tauto. }
  assert (T : In ERR_PRICE
                (ProductTs.errorsOf (ProductTs.createProduct props now)) <->
              ~ Spec.priceAccepted (ProductProps.price props)).
  { rewrite ProductTs_createProduct_eq, priceAccepted_spec.
    rewrite not_true_iff_false.
    rewrite <- (message_in_violated Spec.RulePrice props).
    destruct (Spec.violated props); simpl; tauto. }
  split; [exact P|]. split; [exact T|]. split.
  - intros R. apply priceRejected_not_accepted in R. split.
    + now apply P.
    + now apply T.
  - intros x. apply (priceAccepted_spec (VNumber x)).
Qed.

Lemma C8_price_rule_witness :
  In ERR_PRICE
     (Part000.errorsOf
        (Part000.createProduct (withPrice widget (VNumber nan)) 0)) /\
  In ERR_PRICE
     (ProductTs.errorsOf
        (ProductTs.createProduct (withPrice widget (VNumber nan)) 0)).
Proof.
  exact (proj1 (proj2 (proj2
           (C8_price_rule (withPrice widget (VNumber nan)) 0)))
         (or_introl eq_refl)).
Defined.

(** ** The factory: the constructed entity *)

Lemma toDateOrUndefined_spec (v : JSValue) :
  toDateOrUndefined v = Spec.suppliedDate v.
Proof.
  destruct v as [| | | | |[[t|]]|]; reflexivity.
Qed.

Lemma orElse_valid (a : option Date) (t : Z) :
  (forall d, a = Some d -> Spec.isValidDate (VDate d) = true) ->
  Spec.isValidDate (VDate (orElse a (mkDate (Some t)))) = true.
Proof. destruct a as [d|]; simpl; auto. Qed.

Lemma suppliedDate_valid (v : JSValue) (d : Date) :
  Spec.suppliedDate v = Some d -> Spec.isValidDate (VDate d) = true.
Proof.
  destruct v as [| | | | |[[t|]]|]; simpl; try discriminate.
  now intros [= <-].
Qed.

Lemma Part000_entityOk (p : Part000.Product.t) :
  Spec.entityOk (Part000.Product.ownProperties p) =
  Spec.isNonBlankString (Part000.Product.id p) &&
  Spec.isNonBlankString (Part000.Product.name p) &&
  Spec.isFiniteNonNegativeNumber (Part000.Product.price p) &&
  Spec.isOptionalString (Part000.Product.description p) &&
  Spec.isOptionalString (Part000.Product.category p) &&
  Spec.isValidDate (VDate (Part000.Product.createdAt p)) &&
  Spec.isValidDate (VDate (Part000.Product.updatedAt p)).
Proof. reflexivity. Qed.

Lemma ProductTs_props (p : ProductTs.Product.t) :
  let o := ProductTs.Product.ownProperties p in
  map fst o = ["id"; "name"; "pricePence"; "description";
               "updatedAt"]%string /\
  Spec.getProp o "id" = ProductTs.Product.id p /\
  Spec.getProp o "name" = ProductTs.Product.name p /\
  Spec.getProp o "pricePence" = ProductTs.Product.pricePence p /\
  Spec.getProp o "description" = ProductTs.Product.description p /\
  Spec.getProp o "updatedAt" = VDate (ProductTs.Product.updatedAt p) /\
  Spec.getProp o "price" = VUndefined /\
  Spec.getProp o "category" = VUndefined /\
  Spec.getProp o "createdAt" = VUndefined.
Proof. repeat split. Qed.

(** C1 (as stated, on [src/domain/product.ts]): the entity built for
    [{id: "p1", name: "Widget", price: 9.99}] is not an entity of the
    specification's shape: it has no [price], and no [createdAt]. *)
Lemma C1_counterexample :
  match ProductTs.createProduct widget 0 with
  | ProductTs.Success p =>
      Spec.entityOk (ProductTs.Product.ownProperties p) = false /\
      Spec.getProp (ProductTs.Product.ownProperties p) "price"
        = VUndefined /\
      Spec.getProp (ProductTs.Product.ownProperties p) "createdAt"
        = VUndefined
  | ProductTs.Failure _ => False
  end.
Proof. vm_compute. repeat split. Qed.

(** C1 (amended): every success of the factory comes from an input that
    violates no rule, and a failure carries at least one message.  In
    [unnamed/part_000] the entity has the specification's shape: non-blank
    id and name, the input's price unchanged under [price] (finite and
    >= 0), optional description and category, valid [createdAt] and
    [updatedAt], with [createdAt] the supplied valid date or else the
    construction time.  In [src/domain/product.ts] the entity has exactly
    the properties id, name, pricePence, description and updatedAt:
    non-blank id and name, a finite number >= 0 (the input's price) under
    [pricePence], an optional description and a valid [updatedAt]. *)
Theorem C1_constructed_entity (props : ProductProps.t) (now : Z) :
  match Part000.createProduct props now with
  | Part000.Success p =>
      Spec.violated props = [] /\
      Spec.entityOk (Part000.Product.ownProperties p) = true /\
      Part000.Product.price p = ProductProps.price props /\
      Part000.Product.category p = ProductProps.category props /\
      Part000.Product.createdAt p =
        match Spec.suppliedDate (ProductProps.createdAt props) with
        | Some d => d
        | None => Date_now now
        end
  | Part000.Failure errors => errors <> [] /\ Spec.violated props <> []
  end /\
  match ProductTs.createProduct props now with
  | ProductTs.Success p =>
      let o := ProductTs.Product.ownProperties p in
      Spec.violated props = [] /\
      map fst o = ["id"; "name"; "pricePence"; "description";
                   "updatedAt"]%string /\
      Spec.isNonBlankString (Spec.getProp o "id") = true /\
      Spec.isNonBlankString (Spec.getProp o "name") = true /\
      Spec.isFiniteNonNegativeNumber (Spec.getProp o "pricePence") = true /\
      Spec.getProp o "pricePence" = ProductProps.price props /\
      Spec.isOptionalString (Spec.getProp o "description") = true /\
      Spec.isValidDate (Spec.getProp o "updatedAt") = true
  | ProductTs.Failure errors => errors <> [] /\ Spec.violated props <> []
  end.
Proof.
  rewrite Part000_createProduct_eq, ProductTs_createProduct_eq.
  destruct (Spec.violated props) as [|r rest] eqn:V.
  - pose proof (proj1 (violated_nil props) V) as A.
    pose proof (A Spec.RuleId) as A1. pose proof (A Spec.RuleName) as A2.
    pose proof (A Spec.RulePrice) as A3.
    pose proof (A Spec.RuleDescription) as A4.
    pose proof (A Spec.RuleCategory) as A5.
    simpl in A1, A2, A3, A4, A5.
    rewrite !toDateOrUndefined_spec.
    assert (C : Spec.isValidDate
                  (VDate (orElse
                            (Spec.suppliedDate (ProductProps.createdAt props))
                            (Date_now now))) = true).
    { apply orElse_valid. intros d. apply suppliedDate_valid. }
    assert (U : Spec.isValidDate
                  (VDate
                     (orElse
                        (Spec.suppliedDate (ProductProps.updatedAt props))
                        (orElse
                           (Spec.suppliedDate (ProductProps.createdAt props))
                           (Date_now now)))) = true).
    { destruct (Spec.suppliedDate (ProductProps.updatedAt props)) eqn:E;
        simpl; [|exact C].
      now apply suppliedDate_valid in E. }
    split.
    + cbv zeta. repeat split; try reflexivity.
      rewrite Part000_entityOk. simpl.
      rewrite A1, A2, A3, A4, A5. simpl in C, U. rewrite C, U.
      reflexivity.
    + cbv beta iota zeta.
      match goal with
      | |- context [ProductTs.Product.ownProperties ?p] =>
          destruct (ProductTs_props p)
            as (P0 & P1 & P2 & P3 & P4 & P5 & _)
      end.
      cbv zeta in P0, P1, P2, P3, P4, P5.
      rewrite P0, P1, P2, P3, P4, P5. simpl.
      repeat split; assumption.
  - simpl. repeat split; discriminate.
Qed.

(** C3 (as stated, on [src/domain/product.ts]): for
    [{id: "p1", name: "Widget", price: 9.99, updatedAt: new Date(1000)}]
    at time 5000 the entity's [createdAt] is not the call time: the
    entity has no such property. *)
Lemma C3_counterexample :
  match ProductTs.createProduct widgetUpdated 5000 with
  | ProductTs.Success p =>
      Spec.getProp (ProductTs.Product.ownProperties p) "createdAt"
        <> VDate (Date_now 5000)
  | ProductTs.Failure _ => False
  end.
Proof. vm_compute. discriminate. Qed.

(** C3 (amended): for a valid input without a (valid) createdAt, in
    [unnamed/part_000] the entity's [createdAt] is the call time, and its
    [updatedAt] is the supplied valid updatedAt, or [createdAt] when none
    is supplied; in [src/domain/product.ts] the entity has no [createdAt]
    and its [updatedAt] is the supplied valid updatedAt, or the call time
    when none is supplied. *)
Theorem C3_timestamp_defaults (props : ProductProps.t) (now : Z) :
  Spec.violated props = [] ->
  Spec.suppliedDate (ProductProps.createdAt props) = None ->
  (forall u, Spec.suppliedDate (ProductProps.updatedAt props) = Some u ->
     (exists p, Part000.createProduct props now = Part000.Success p /\
                Part000.Product.createdAt p = Date_now now /\
                Part000.Product.updatedAt p = u) /\
     (exists p, ProductTs.createProduct props now = ProductTs.Success p /\
                Spec.getProp (ProductTs.Product.ownProperties p) "createdAt"
                  = VUndefined /\
                ProductTs.Product.updatedAt p = u)) /\
  (Spec.suppliedDate (ProductProps.updatedAt props) = None ->
     (exists p, Part000.createProduct props now = Part000.Success p /\
                Part000.Product.createdAt p = Date_now now /\
                Part000.Product.updatedAt p = Part000.Product.createdAt p) /\
     (exists p, ProductTs.createProduct props now = ProductTs.Success p /\
                Spec.getProp (ProductTs.Product.ownProperties p) "createdAt"
                  = VUndefined /\
                ProductTs.Product.updatedAt p = Date_now now)).
Proof.
  intros V Cr.
  rewrite Part000_createProduct_eq, ProductTs_createProduct_eq, V.
  rewrite !toDateOrUndefined_spec, Cr. simpl.
  split.
  - intros u U. rewrite U. simpl.
    split; eexists; repeat split; reflexivity.
  - intros U. rewrite U. simpl.
    split; eexists; repeat split; reflexivity.
Qed.

Lemma C3_timestamp_defaults_witness :
  (exists p, Part000.createProduct widgetUpdated 5000 = Part000.Success p /\
             Part000.Product.createdAt p = Date_now 5000 /\
             Part000.Product.updatedAt p = mkDate (Some 1000)) /\
  (exists p, ProductTs.createProduct widgetUpdated 5000
               = ProductTs.Success p /\
             Spec.getProp (ProductTs.Product.ownProperties p) "createdAt"
               = VUndefined /\
             ProductTs.Product.updatedAt p = mkDate (Some 1000)).
Proof.
  exact (proj1 (C3_timestamp_defaults widgetUpdated 5000 eq_refl eq_refl)
           (mkDate (Some 1000)) eq_refl).
Defined.

(** ** The throwing validator *)

Lemma string_check_spec (v : JSValue) :
  negb (truthy v) || negb (String.eqb (typeof v) "string")
  || ProductTs.trimIsEmpty v
  = negb (Spec.isNonBlankString v).
Proof.
  destruct v as [| | b | x | s | d | tag]; simpl;
    rewrite ?orb_true_r; try reflexivity.
  rewrite hasNonWhiteSpace_negb, negb_involutive.
  destruct s as [|c s]; [reflexivity|].
  cbn [negb orb].
  destruct (forallb isWhiteSpace (c :: s)) eqn:E.
  - apply trim_nil in E. now rewrite E.
  - destruct (trim (c :: s)) eqn:T; [|reflexivity].
    apply trim_nil in T. congruence.
Qed.

Lemma date_check_spec (v : JSValue) :
  negb (ProductTs.instanceofDate v) || ProductTs.getTimeIsNaN v
  = negb (Spec.isValidDate v).
Proof. destruct v as [| | | | |[[t|]]|]; reflexivity. Qed.

Lemma nonneg_integer_spec (x : float) :
  (x <? 0)%float = false /\ Number_isInteger x = true <->
  exists n, 0 <= n /\ Spec.denotesInteger x n.
Proof.
  rewrite ltb_zero_spec. unfold Number_isInteger, Spec.denotesInteger.
  destruct (Prim2SF x) as [s|s| |s m e].
  - split; [intros _; exists 0; split; [lia|reflexivity]|auto].
  - split; [intros [_ ?]; discriminate|intros (n & _ & [])].
  - split; [intros [_ ?]; discriminate|intros (n & _ & [])].
  - destruct (0 <=? e) eqn:E; simpl.
    + apply Z.leb_le in E.
      assert (0 < 2 ^ e) by (apply Z.pow_pos_nonneg; lia).
      destruct s; split.
      * intros [? _]; discriminate.
      * intros (n & Hn & ->). nia.
      * intros _. exists (Z.pos m * 2 ^ e). split; [nia|reflexivity].
      * auto.
    + apply Z.leb_gt in E.
      assert (P : 0 < 2 ^ (- e)) by (apply Z.pow_pos_nonneg; lia).
      destruct s; split.
      * intros [? _]; discriminate.
      * intros (n & Hn & Hm). nia.
      * intros [_ D]. apply Z.eqb_eq in D.
        apply Z.mod_divide in D; [|lia]. destruct D as [n Hn].
        exists n. split; [nia|exact Hn].
      * intros (n & Hn & Hm). split; [reflexivity|].
        apply Z.eqb_eq. apply Z.mod_divide; [lia|]. now exists n.
Qed.

Lemma price_check_spec (v : JSValue) :
  negb (String.eqb (typeof v) "number") || ProductTs.ltZero v
  || negb (ProductTs.isInteger v)
    = false <->
  Spec.isNonNegativeInteger v.
Proof.
  unfold Spec.isNonNegativeInteger.
  destruct v as [| | b | x | s | d | tag]; simpl;
    try (split; [discriminate|intros (x0 & n & ? & _); discriminate]).
  rewrite orb_false_iff, negb_false_iff, nonneg_integer_spec.
  split.
  - intros (n & ? & ?). exists x, n. auto.
  - intros (x0 & n & [= <-] & ? & ?). eauto.
Qed.

(** C10 (as stated): with a description of three spaces and every other
    field valid, all the stated conditions hold (the description is a
    string that is not empty), yet the validator throws. *)
Lemma C10_counterexample :
  Spec.isNonBlankString (ProductTs.CreateProductParams.id blankDescription)
    = true /\
  Spec.isNonBlankString (ProductTs.CreateProductParams.name blankDescription)
    = true /\
  Spec.isNonNegativeInteger
    (ProductTs.CreateProductParams.pricePence blankDescription) /\
  Spec.isNonEmptyStringNoTrim
    (ProductTs.CreateProductParams.description blankDescription) = true /\
  Spec.isValidDate (ProductTs.CreateProductParams.updatedAt blankDescription)
    = true /\
  ProductTs.validateProduct blankDescription
    = Throw (ProductError "description"
               "Product description must be a non-empty string.").
Proof.
  repeat split.
  exists 999%float, 999.
  split; [reflexivity|]. split; [lia|]. vm_compute. reflexivity.
Qed.

(** C10 (amended): [validateProduct] returns normally if and only if id
    and name are strings that are non-empty after trimming, pricePence is
    a non-negative integer, description is a string that is non-empty
    after trimming, and updatedAt is a valid Date.  Otherwise it throws
    one [ProductError], for the first violated rule in the order id,
    name, pricePence, description, updatedAt.  It is stricter than the
    factory: 9.99 passes the factory's price rule and is no integer. *)
Theorem C10_validateProduct (q : ProductTs.CreateProductParams.t) :
  (ProductTs.validateProduct q = Return tt <->
   ValidatorSpec.idOk q /\ ValidatorSpec.nameOk q /\
   ValidatorSpec.pricePenceOk q /\ ValidatorSpec.descriptionOk q /\
   ValidatorSpec.updatedAtOk q) /\
  (~ ValidatorSpec.idOk q ->
   ProductTs.validateProduct q = Throw ValidatorSpec.idError) /\
  (ValidatorSpec.idOk q -> ~ ValidatorSpec.nameOk q ->
   ProductTs.validateProduct q = Throw ValidatorSpec.nameError) /\
  (ValidatorSpec.idOk q -> ValidatorSpec.nameOk q ->
   ~ ValidatorSpec.pricePenceOk q ->
   ProductTs.validateProduct q = Throw ValidatorSpec.pricePenceError) /\
  (ValidatorSpec.idOk q -> ValidatorSpec.nameOk q ->
   ValidatorSpec.pricePenceOk q -> ~ ValidatorSpec.descriptionOk q ->
   ProductTs.validateProduct q = Throw ValidatorSpec.descriptionError) /\
  (ValidatorSpec.idOk q -> ValidatorSpec.nameOk q ->
   ValidatorSpec.pricePenceOk q -> ValidatorSpec.descriptionOk q ->
   ~ ValidatorSpec.updatedAtOk q ->
   ProductTs.validateProduct q = Throw ValidatorSpec.updatedAtError) /\
  (isNonNegativeNumber (ProductProps.price widget) = true /\
   ~ Spec.isNonNegativeInteger (ProductProps.price widget)).
Proof.
  assert (W : isNonNegativeNumber (ProductProps.price widget) = true /\
              ~ Spec.isNonNegativeInteger (ProductProps.price widget)).
  { split; [reflexivity|].
    rewrite <- price_check_spec. vm_compute. discriminate. }
  unfold ValidatorSpec.idOk, ValidatorSpec.nameOk,
    ValidatorSpec.pricePenceOk, ValidatorSpec.descriptionOk,
    ValidatorSpec.updatedAtOk, ProductTs.validateProduct.
  rewrite !string_check_spec, date_check_spec.
  pose proof (price_check_spec
                (ProductTs.CreateProductParams.pricePence q)) as P.
  revert P.
  generalize (Spec.isNonNegativeInteger
                (ProductTs.CreateProductParams.pricePence q)).
  generalize (negb (String.eqb
                      (typeof (ProductTs.CreateProductParams.pricePence q))
                      "number")
              || ProductTs.ltZero (ProductTs.CreateProductParams.pricePence q)
              || negb (ProductTs.isInteger
                         (ProductTs.CreateProductParams.pricePence q))).
  generalize (Spec.isNonBlankString (ProductTs.CreateProductParams.id q)).
  generalize (Spec.isNonBlankString (ProductTs.CreateProductParams.name q)).
  generalize (Spec.isNonBlankString
                (ProductTs.CreateProductParams.description q)).
  generalize (Spec.isValidDate (ProductTs.CreateProductParams.updatedAt q)).
  generalize W. generalize (isNonNegativeNumber (ProductProps.price widget)).
  generalize (Spec.isNonNegativeInteger (ProductProps.price widget)).
  clear. intros W0 w1 W b5 b4 b2 b1 pc PO P.
  assert (Q : pc = true <-> ~ PO).
  { destruct pc.
    - split; [intros _ A; apply P in A; discriminate|reflexivity].
    - split; [discriminate|intros H; exfalso; apply H, P; reflexivity]. }
  destruct b1, b2, b4, b5; simpl;
    (destruct pc;
     [assert (~ PO) by (now apply Q)
     |assert PO by (now apply P)]);
    repeat split; intros;
    try reflexivity; try discriminate; try tauto;
    try (exfalso; tauto);
    repeat match goal with
           | H : _ /\ _ |- _ => destruct H
           end;
    try discriminate; try tauto.
Qed.

Lemma C10_validateProduct_witness :
  ProductTs.validateProduct goodParams = Return tt.
Proof.
  refine (proj2 (proj1 (C10_validateProduct goodParams)) _).
  repeat split.
  exists 999%float, 999.
  split; [reflexivity|]. split; [lia|]. vm_compute. reflexivity.
Defined.

(** ** Dates: [new Date(d.toISOString())] *)

Import DateTime.

Lemma DayFromYear_approx (y : Z) :
  146097 * (y - 1970) - 1000 <= 400 * DayFromYear y
  /\ 400 * DayFromYear y <= 146097 * (y - 1970) + 1000.
Proof. unfold DayFromYear. Z.to_euclidean_division_equations. lia. Qed.

Lemma DayFromYear_succ (y : Z) :
  DayFromYear (y + 1) = DayFromYear y + DaysInYear y.
Proof.
  unfold DayFromYear, DaysInYear.
  replace (y + 1 - 1970) with (y - 1970 + 1) by lia.
  destruct (Z.eqb_spec (y mod 4) 0); simpl;
  [destruct (Z.eqb_spec (y mod 100) 0); simpl;
   [destruct (Z.eqb_spec (y mod 400) 0); simpl|]|];
  Z.to_euclidean_division_equations; lia.
Qed.

Lemma YearFromTime_bounds (t : Z) :
  DayFromYear (YearFromTime t) <= Day t < DayFromYear (YearFromTime t + 1).
Proof.
  unfold YearFromTime.
  set (d := Day t). set (q := 400 * d / 146097).
  assert (Q : 146097 * q <= 400 * d < 146097 * q + 146097).
  { unfold q. Z.to_euclidean_division_equations. lia. }
  pose proof (DayFromYear_approx (1970 + q - 1)).
  pose proof (DayFromYear_approx (1970 + q + 1 + 1)).
  destruct (Z.ltb_spec d (DayFromYear (1970 + q))).
  - replace (1970 + q - 1 + 1) with (1970 + q) by lia. lia.
  - destruct (Z.leb_spec (DayFromYear (1970 + q + 1)) d); lia.
Qed.

Lemma DayFromYear_mono (y1 y2 : Z) :
  y1 <= y2 -> DayFromYear y1 <= DayFromYear y2.
Proof.
  intros L. unfold DayFromYear. Z.to_euclidean_division_equations. lia.
Qed.

(** [YearFromTime] is the year of the language standard: the largest
    year that starts no later than [t]. *)
Lemma YearFromTime_largest (t : Z) :
  TimeFromYear (YearFromTime t) <= t /\
  forall y, TimeFromYear y <= t -> y <= YearFromTime t.
Proof.
  pose proof (YearFromTime_bounds t) as [B1 B2].
  assert (D : forall y, TimeFromYear y <= t <-> DayFromYear y <= Day t).
  { intros y. unfold TimeFromYear, Day, msPerDay.
    Z.to_euclidean_division_equations. lia. }
  split; [now apply D|].
  intros y Hy. apply D in Hy.
  destruct (Z.le_gt_cases y (YearFromTime t)) as [|G]; [assumption|].
  pose proof (DayFromYear_mono (YearFromTime t + 1) y). lia.
Qed.

Lemma DaysInYear_cases (y : Z) :
  (DaysInYear y = 365 \/ DaysInYear y = 366).
Proof.
  unfold DaysInYear.
  destruct (y mod 4 =? 0), (y mod 100 =? 0), (y mod 400 =? 0); simpl; auto.
Qed.

Lemma InLeapYear_DaysInYear (t : Z) :
  DaysInYear (YearFromTime t) = 365 + InLeapYear t.
Proof.
  unfold InLeapYear.
  destruct (DaysInYear_cases (YearFromTime t)) as [E|E]; rewrite E;
    reflexivity.
Qed.

Lemma DayWithinYear_bounds (t : Z) :
  0 <= DayWithinYear t < 365 + InLeapYear t /\
  (InLeapYear t = 0 \/ InLeapYear t = 1).
Proof.
  pose proof (YearFromTime_bounds t) as B.
  rewrite DayFromYear_succ, InLeapYear_DaysInYear in B.
  unfold DayWithinYear. split; [lia|].
  unfold InLeapYear. destruct (_ =? _); auto.
Qed.

Lemma Month_Date_bounds (t : Z) :
  0 <= MonthFromTime t <= 11 /\ 1 <= DateFromTime t <= 31.
Proof.
  destruct (DayWithinYear_bounds t) as [B L].
  unfold DateFromTime, MonthFromTime.
  set (d := DayWithinYear t) in *. set (leap := InLeapYear t) in *.
  repeat match goal with
         | |- context [?a <? ?b] => destruct (Z.ltb_spec a b)
         end; simpl; lia.
Qed.

Lemma MakeDay_FromTime (t : Z) :
  MakeDay (YearFromTime t) (MonthFromTime t + 1 - 1) (DateFromTime t)
  = Day t.
Proof.
  unfold MakeDay, DateFromTime, DayWithinYear.
  replace (MonthFromTime t + 1 - 1) with (MonthFromTime t) by lia.
  fold (InLeapYear t). lia.
Qed.

Lemma time_fields_bounds (t : Z) :
  0 <= HourFromTime t <= 23 /\ 0 <= MinFromTime t <= 59 /\
  0 <= SecFromTime t <= 59 /\ 0 <= msFromTime t <= 999.
Proof.
  unfold HourFromTime, MinFromTime, SecFromTime, msFromTime,
    msPerHour, msPerMinute, msPerSecond.
  Z.to_euclidean_division_equations. lia.
Qed.

Lemma MakeTime_FromTime (t : Z) :
  MakeTime (HourFromTime t) (MinFromTime t) (SecFromTime t) (msFromTime t)
  = TimeWithinDay t.
Proof.
  unfold MakeTime, HourFromTime, MinFromTime, SecFromTime, msFromTime,
    TimeWithinDay, msPerHour, msPerMinute, msPerSecond, msPerDay.
  Z.to_euclidean_division_equations. lia.
Qed.

Lemma MakeDate_Day (t : Z) : MakeDate (Day t) (TimeWithinDay t) = t.
Proof.
  unfold MakeDate, Day, TimeWithinDay, msPerDay.
  Z.to_euclidean_division_equations. lia.
Qed.

Lemma YearFromTime_range (t : Z) :
  Z.abs t <= 8640000000000000 ->
  -271821 <= YearFromTime t <= 275760.
Proof.
  intros R. pose proof (YearFromTime_bounds t) as B.
  pose proof (DayFromYear_approx (YearFromTime t)).
  pose proof (DayFromYear_approx (YearFromTime t + 1)).
  assert (-100000000 <= Day t <= 100000000).
  { unfold Day, msPerDay. Z.to_euclidean_division_equations. lia. }
  lia.
Qed.

Lemma digitVal_digitChar (d : Z) :
  0 <= d <= 9 -> digitVal (digitChar d) = Some d.
Proof.
  intros R. unfold digitVal, digitChar.
  assert (E : Z.of_N (Z.to_N (48 + d)) = 48 + d) by (apply Z2N.id; lia).
  destruct (N.leb_spec 48 (Z.to_N (48 + d))); [|lia].
  destruct (N.leb_spec (Z.to_N (48 + d)) 57); [|lia].
  simpl. f_equal. lia.
Qed.

Lemma readDigits_pad (k : nat) (acc n : Z) (rest : jsstring) :
  0 <= n ->
  readDigits k acc (pad k n ++ rest)
  = Some (acc * 10 ^ Z.of_nat k + n mod 10 ^ Z.of_nat k, rest).
Proof.
  intros Hn. revert acc. induction k as [|k IH]; intros acc.
  - simpl. rewrite Z.mod_1_r. do 2 f_equal. lia.
  - cbn [pad readDigits app].
    assert (P : 0 < 10 ^ Z.of_nat k) by (apply Z.pow_pos_nonneg; lia).
    rewrite digitVal_digitChar
      by (pose proof (Z.mod_pos_bound (n / 10 ^ Z.of_nat k) 10); lia).
    rewrite IH. do 2 f_equal.
    rewrite Nat2Z.inj_succ, Z.pow_succ_r by lia.
    rewrite (Z.mul_comm 10 (10 ^ Z.of_nat k)).
    rewrite (Z.rem_mul_r n (10 ^ Z.of_nat k) 10) by lia.
    ring.
Qed.

Lemma readDigits_pad_exact (k : nat) (n : Z) (rest : jsstring) :
  0 <= n < 10 ^ Z.of_nat k ->
  readDigits k 0 (pad k n ++ rest) = Some (n, rest).
Proof.
  intros R. rewrite readDigits_pad by lia.
  rewrite Z.mod_small by lia. reflexivity.
Qed.

Lemma expect_str (c : string) (rest : jsstring) :
  String.length c = 1%nat -> expect c (str c ++ rest) = Some rest.
Proof.
  destruct c as [|a [|b c]]; try discriminate. intros _.
  unfold expect. simpl. now rewrite N.eqb_refl.
Qed.

Lemma pad_head (k : nat) (n : Z) (rest : jsstring) :
  0 <= n ->
  exists c s, pad (S k) n ++ rest = c :: s /\ (48 <= c <= 57)%N.
Proof.
  intros Hn. cbn [pad app]. eexists _, _. split; [reflexivity|].
  unfold digitChar.
  pose proof (Z.mod_pos_bound (n / 10 ^ Z.of_nat k) 10). lia.
Qed.

Lemma expect_sign_digit (c : N) (s : jsstring) :
  (48 <= c <= 57)%N ->
  expect "+" (c :: s) = None /\ expect "-" (c :: s) = None.
Proof.
  intros Hc. unfold expect. cbn [str].
  change (Ascii.N_of_ascii "+"%char) with 43%N.
  change (Ascii.N_of_ascii "-"%char) with 45%N.
  destruct (N.eqb_spec 43 c); [lia|].
  destruct (N.eqb_spec 45 c); [lia|]. auto.
Qed.

Lemma readYear_formatYear (y : Z) (rest : jsstring) :
  -999999 <= y <= 999999 ->
  readYear (formatYear y ++ rest) = Some (y, rest).
Proof.
  intros R. unfold formatYear, readYear.
  destruct (Z.leb_spec 0 y); destruct (Z.leb_spec y 9999); cbn [andb];
    try (destruct (Z.ltb_spec y 0)); try lia.
  - destruct (pad_head 3 y rest) as (c & s & E & Hc); [lia|].
    rewrite E. destruct (expect_sign_digit c s Hc) as [-> ->].
    rewrite <- E. apply readDigits_pad_exact. simpl. lia.
  - rewrite <- app_assoc, (expect_str "+") by reflexivity.
    apply readDigits_pad_exact. simpl. lia.
  - rewrite <- app_assoc.
    change (expect "+" (str "-" ++ pad 6 (- y) ++ rest)) with (@None jsstring).
    rewrite (expect_str "-") by reflexivity.
    rewrite readDigits_pad_exact by (simpl; lia).
    destruct (Z.eqb_spec (- y) 0); [lia|].
    do 2 f_equal. lia.
Qed.

Lemma parseISO_formatISO (t : Z) :
  Z.abs t <= 8640000000000000 -> parseISO (formatISO t) = Some t.
Proof.
  intros R. unfold parseISO, formatISO.
  pose proof (YearFromTime_range t R).
  destruct (Month_Date_bounds t) as [HM HD].
  destruct (time_fields_bounds t) as (Hh & Hm & Hs & Hms).
  rewrite readYear_formatYear by lia. cbn [mbind option_bind].
  rewrite (expect_str "-") by reflexivity. cbn [mbind option_bind].
  rewrite readDigits_pad_exact by (simpl; lia). cbn [mbind option_bind].
  rewrite (expect_str "-") by reflexivity. cbn [mbind option_bind].
  rewrite readDigits_pad_exact by (simpl; lia). cbn [mbind option_bind].
  rewrite (expect_str "T") by reflexivity. cbn [mbind option_bind].
  rewrite readDigits_pad_exact by (simpl; lia). cbn [mbind option_bind].
  rewrite (expect_str ":") by reflexivity. cbn [mbind option_bind].
  rewrite readDigits_pad_exact by (simpl; lia). cbn [mbind option_bind].
  rewrite (expect_str ":") by reflexivity. cbn [mbind option_bind].
  rewrite readDigits_pad_exact by (simpl; lia). cbn [mbind option_bind].
  rewrite (expect_str ".") by reflexivity. cbn [mbind option_bind].
  rewrite readDigits_pad_exact by (simpl; lia). cbn [mbind option_bind].
  rewrite <- (app_nil_r (str "Z")), (expect_str "Z") by reflexivity.
  cbn [mbind option_bind].
  rewrite MakeDay_FromTime, MakeTime_FromTime, MakeDate_Day.
  repeat match goal with
         | |- context [?a <=? ?b] =>
             destruct (Z.leb_spec a b); [|lia]
         | |- context [?a <? ?b] =>
             destruct (Z.ltb_spec a b); [|lia]
         end.
  simpl. unfold TimeClip.
  destruct (Z.ltb_spec 8640000000000000 (Z.abs t)); [lia|reflexivity].
Qed.

Lemma Date_round_trip (t : Z) :
  Z.abs t <= 8640000000000000 ->
  exists iso, toISOString (mkDate (Some t)) = Return iso /\
              Date_ofString iso = mkDate (Some t).
Proof.
  intros R. exists (formatISO t). split; [reflexivity|].
  unfold Date_ofString. now rewrite parseISO_formatISO.
Qed.

(** ** The Cosmos adapter *)

Import CosmosProductRepo.

Lemma SFeqb_finite (f : spec_float) (s : bool) (m : positive) (e : Z) :
  SFeqb f (S754_finite s m e) = true -> f = S754_finite s m e.
Proof.
  unfold SFeqb.
  destruct f as [s'|s'| |s' m' e']; cbn [SFcompare]; try discriminate.
  - destruct s; discriminate.
  - destruct s'; discriminate.
  - change (Pos.compare_cont Eq m' m) with (Pos.compare m' m).
    destruct s', s; try discriminate;
      destruct (Z.compare_spec e' e); try discriminate;
      destruct (Pos.compare_spec m' m); try discriminate;
      intros _; subst; reflexivity.
Qed.

Lemma eqb_404 (x : float) : (x =? 404)%float = true <-> x = 404%float.
Proof.
  split; [|now intros ->].
  rewrite eqb_spec. intros H. apply Prim2SF_inj.
  destruct (Prim2SF 404) as [s|s| |s m e] eqn:Y;
    try (vm_compute in Y; discriminate Y).
  now apply SFeqb_finite.
Qed.

Lemma is404_spec (v : JSValue) : is404 v = true <-> v = VNumber 404%float.
Proof.
  destruct v; simpl; try (split; discriminate).
  rewrite eqb_404. split; [now intros ->|now intros [= ->]].
Qed.

(** The adapter's test [err?.code === 404 || err?.statusCode === 404]
    holds exactly of the thrown values that signal not-found. *)
Lemma notFound_test_spec (e : Thrown) :
  is404 (err_code e) || is404 (err_statusCode e) = true <->
  Spec.signalsNotFound e.
Proof.
  rewrite orb_true_iff, !is404_spec. unfold Spec.signalsNotFound. split.
  - destruct e as [f m|m|c sc m|v]; simpl;
      intros [H|H]; try discriminate H; subst; eauto 6.
  - intros (c & sc & m & -> & [->| ->]); simpl; auto.
Qed.

Lemma notFound_test_cases (e : Thrown) :
  (is404 (err_code e) || is404 (err_statusCode e) = true /\
   Spec.signalsNotFound e) \/
  (is404 (err_code e) || is404 (err_statusCode e) = false /\
   ~ Spec.signalsNotFound e).
Proof.
  pose proof (notFound_test_spec e) as P.
  destruct (is404 (err_code e) || is404 (err_statusCode e)).
  - left. split; [reflexivity|]. now apply P.
  - right. split; [reflexivity|]. intros A. apply P in A. discriminate.
Qed.

Lemma gone_signals_notFound : Spec.signalsNotFound FailingContainer.gone.
Proof.
  exists VUndefined, (VNumber 404%float), (str "Not Found"). auto.
Qed.

Lemma notFound_signals_notFound : Spec.signalsNotFound MemContainer.notFound.
Proof.
  exists (VNumber 404%float), VUndefined, (str "NotFound"). auto.
Qed.

Lemma broken_is_other : ~ Spec.signalsNotFound FailingContainer.broken.
Proof.
  intros (c & sc & m & E & H). unfold FailingContainer.broken in E.
  assert (Ec : VNumber 500%float = c) by congruence.
  assert (Es : VUndefined = sc) by congruence.
  subst c sc. destruct H as [H|H]; [|discriminate H].
  apply (f_equal (fun v => match v with
                           | VNumber x => (x =? 404)%float
                           | _ => false
                           end)) in H.
  vm_compute in H. discriminate H.
Qed.

(** C5: [getById] never fails for "not found".  Whatever the container:
    when the backend's read throws an error object whose [code] or
    [statusCode] is the number 404, or answers without a resource,
    [getById] returns the absent result; when it throws anything else
    (another code, no code, a value that is no error object), [getById]
    fails with that very value; so every failure of [getById] is a
    failure of the backend that does not signal not-found; a resource is
    returned translated to the domain. *)
Theorem C5_getById_not_found
  (S : Type) (C : Container S) (id : jsstring) (st : S) :
  (forall e st', item_read id st = (Throw e, st') ->
     Spec.signalsNotFound e ->
     getById id st = (Return None, st')) /\
  (forall e st', item_read id st = (Throw e, st') ->
     ~ Spec.signalsNotFound e ->
     getById id st = (Throw e, st')) /\
  (forall e st', getById id st = (Throw e, st') ->
     ~ Spec.signalsNotFound e /\ item_read id st = (Throw e, st')) /\
  (forall st', item_read id st = (Return None, st') ->
     getById id st = (Return None, st')) /\
  (forall r st', item_read id st = (Return (Some r), st') ->
     getById id st = (Return (Some (toDomain r)), st')).
Proof.
  run_async.
  destruct (item_read id st) as [[[r|]|e0] st0].
  - split; [discriminate|]. split; [discriminate|].
    split; [discriminate|]. split; [discriminate|].
    now intros r' st' [= <- <-].
  - split; [discriminate|]. split; [discriminate|].
    split; [discriminate|]. split; [|discriminate].
    now intros st' [= <-].
  - destruct (notFound_test_cases e0) as [[-> N]|[-> N]].
    + split; [now intros e st' [= <- <-] _|].
      split; [intros e st' [= <- <-] A; now destruct A|].
      split; [discriminate|].
      split; discriminate.
    + split; [intros e st' [= <- <-] A; now destruct N|].
      split; [now intros e st' [= <- <-] _|].
      split; [now intros e st' [= <- <-]|].
      split; discriminate.
Qed.

Lemma C5_getById_not_found_witness :
  @getById _ (FailingContainer.container FailingContainer.gone)
     (str "p1") tt
  = (Return None, tt) /\
  @getById _ (FailingContainer.container FailingContainer.broken)
     (str "p1") tt
  = (Throw FailingContainer.broken, tt) /\
  @getById _ MemContainer.container (str "p1") (MemContainer.empty true)
  = (Return None, MemContainer.empty true).
Proof.
  split; [|split].
  - refine (proj1 (C5_getById_not_found
                     unit (FailingContainer.container FailingContainer.gone)
                     (str "p1") tt)
              FailingContainer.gone tt eq_refl _).
    exact gone_signals_notFound.
  - refine (proj1 (proj2 (C5_getById_not_found
                     unit
                     (FailingContainer.container FailingContainer.broken)
                     (str "p1") tt))
              FailingContainer.broken tt eq_refl _).
    exact broken_is_other.
  - exact (proj1 (C5_getById_not_found
                    MemContainer.State MemContainer.container
                    (str "p1") (MemContainer.empty true))
             MemContainer.notFound (MemContainer.empty true)
             eq_refl notFound_signals_notFound).
Defined.

Lemma Mem_getById_missing (id : jsstring) (ms : MemContainer.State) :
  MemContainer.docs ms !! id = None ->
  @getById _ MemContainer.container id ms = (Return None, ms).
Proof.
  intros E. run_async. simpl. unfold MemContainer.read. rewrite E.
  destruct (MemContainer.readThrowsOnMissing ms); reflexivity.
Qed.

Lemma Mem_delete_missing (id : jsstring) (ms : MemContainer.State) :
  MemContainer.docs ms !! id = None ->
  @delete _ MemContainer.container id ms = (Return tt, ms).
Proof.
  intros E. run_async. simpl. unfold MemContainer.remove. rewrite E.
  reflexivity.
Qed.

(** C6: [delete] is idempotent.  Whatever the container: when the
    backend's delete throws an error object whose [code] or [statusCode]
    is the number 404, [delete] completes normally; when it throws
    anything else, [delete] fails with that very value; so every failure
    of [delete] is a failure of the backend that does not signal
    not-found.  On the reference store [delete] always succeeds; it
    changes nothing when the id is missing; afterwards the id is absent,
    a second [delete] succeeds and changes nothing, and [getById] gives
    the absent result. *)
Theorem C6_delete_idempotent
  (S : Type) (C : Container S) (id : jsstring) (st : S)
  (ms : MemContainer.State) :
  (forall e st', item_delete id st = (Throw e, st') ->
     Spec.signalsNotFound e ->
     delete id st = (Return tt, st')) /\
  (forall e st', item_delete id st = (Throw e, st') ->
     ~ Spec.signalsNotFound e ->
     delete id st = (Throw e, st')) /\
  (forall e st', delete id st = (Throw e, st') ->
     ~ Spec.signalsNotFound e /\ item_delete id st = (Throw e, st')) /\
  (forall st', item_delete id st = (Return tt, st') ->
     delete id st = (Return tt, st')) /\
  (exists ms1,
     @delete _ MemContainer.container id ms = (Return tt, ms1) /\
     (MemContainer.docs ms !! id = None -> ms1 = ms) /\
     MemContainer.docs ms1 !! id = None /\
     @delete _ MemContainer.container id ms1 = (Return tt, ms1) /\
     @getById _ MemContainer.container id ms1 = (Return None, ms1)).
Proof.
  split; [|split; [|split; [|split]]].
  - run_async. intros e st' -> A.
    now destruct (notFound_test_cases e) as [[-> _]|[_ N]].
  - run_async. intros e st' -> A.
    now destruct (notFound_test_cases e) as [[_ N]|[-> _]].
  - run_async. destruct (item_delete id st) as [[[]|e0] st0];
      [discriminate|].
    destruct (notFound_test_cases e0) as [[-> N]|[-> N]];
      [discriminate|].
    intros e st' [= <- <-]. auto.
  - run_async. now intros st' ->.
  - destruct (MemContainer.docs ms !! id) as [dto|] eqn:E.
    + exists (MemContainer.mkState
                (base.delete id (MemContainer.docs ms))
                (MemContainer.readThrowsOnMissing ms)
                (MemContainer.serverTime ms + 1)).
      assert (D : MemContainer.docs
                    (MemContainer.mkState
                       (base.delete id (MemContainer.docs ms))
                       (MemContainer.readThrowsOnMissing ms)
                       (MemContainer.serverTime ms + 1)) !! id = None)
        by apply lookup_delete_eq.
      split.
      { run_async. simpl. unfold MemContainer.remove. rewrite E.
        reflexivity. }
      split; [discriminate|]. split; [exact D|].
      split; [now apply Mem_delete_missing|now apply Mem_getById_missing].
    + exists ms.
      split; [now apply Mem_delete_missing|].
      split; [reflexivity|]. split; [exact E|].
      split; [now apply Mem_delete_missing|now apply Mem_getById_missing].
Qed.

Lemma C6_delete_idempotent_witness :
  @delete _ (FailingContainer.container FailingContainer.gone)
     (str "p1") tt
  = (Return tt, tt) /\
  @delete _ (FailingContainer.container FailingContainer.broken)
     (str "p1") tt
  = (Throw FailingContainer.broken, tt) /\
  @delete _ MemContainer.container (str "p1") (MemContainer.empty true)
  = (Return tt, MemContainer.empty true).
Proof.
  split; [|split].
  - refine (proj1 (C6_delete_idempotent
                     unit (FailingContainer.container FailingContainer.gone)
                     (str "p1") tt (MemContainer.empty true))
              FailingContainer.gone tt eq_refl _).
    exact gone_signals_notFound.
  - refine (proj1 (proj2 (C6_delete_idempotent
                     unit
                     (FailingContainer.container FailingContainer.broken)
                     (str "p1") tt (MemContainer.empty true)))
              FailingContainer.broken tt eq_refl _).
    exact broken_is_other.
  - exact (proj1 (C6_delete_idempotent
                    MemContainer.State MemContainer.container
                    (str "p1") (MemContainer.empty true)
                    (MemContainer.empty true))
             MemContainer.notFound (MemContainer.empty true)
             eq_refl notFound_signals_notFound).
Defined.

Lemma toDTO_toDomain (p : ProductTs.Product.t) (t : Z) :
  ProductTs.Product.updatedAt p = mkDate (Some t) ->
  Z.abs t <= 8640000000000000 ->
  exists dto, toDTO p = Return dto /\ toDomain dto = p /\
              ProductDTO.id dto = ProductTs.Product.id p /\
              forall ms, toDomain (MemContainer.stamp ms dto) = p.
Proof.
  intros U R. destruct p as [i n pr de up]. simpl in U. subst up.
  unfold toDTO. simpl.
  eexists. split; [reflexivity|].
  unfold toDomain, Date_ofString. simpl.
  rewrite parseISO_formatISO by exact R. auto.
Qed.

Lemma save_then_getById
  (p : ProductTs.Product.t) (key : jsstring) (t : Z)
  (ms : MemContainer.State) :
  ProductTs.Product.id p = VString key ->
  ProductTs.Product.updatedAt p = mkDate (Some t) ->
  Z.abs t <= 8640000000000000 ->
  exists ms1,
    @save _ MemContainer.container p ms = (Return p, ms1) /\
    @getById _ MemContainer.container key ms1 = (Return (Some p), ms1).
Proof.
  intros I U R.
  destruct (toDTO_toDomain p t U R) as (dto & D & _ & Di & St).
  eexists. split.
  - run_async. rewrite D. simpl. unfold MemContainer.upsert.
    rewrite Di, I. rewrite St. reflexivity.
  - run_async. simpl. unfold MemContainer.read. simpl.
    rewrite lookup_insert_eq. now rewrite St.
Qed.

Lemma entity_storable (p : ProductTs.Product.t) :
  Spec.isEntity p ->
  exists key t,
    ProductTs.Product.id p = VString key /\
    ProductTs.Product.updatedAt p = mkDate (Some t) /\
    Z.abs t <= 8640000000000000.
Proof.
  intros (props & now & Wc & Wu & Wn & E).
  rewrite ProductTs_createProduct_eq in E.
  destruct (Spec.violated props) eqn:V; [|discriminate].
  injection E as <-. simpl.
  pose proof (proj1 (violated_nil props) V Spec.RuleId) as A. simpl in A.
  destruct (ProductProps.id props) as [| | | |key| |]; try discriminate.
  exists key.
  rewrite !toDateOrUndefined_spec.
  assert (G : forall v, Spec.Value_wf v = true ->
              forall d, Spec.suppliedDate v = Some d ->
              exists t, d = mkDate (Some t) /\ Z.abs t <= 8640000000000000).
  { intros v W d. destruct v as [| | | | |[[t|]]|]; simpl; try discriminate.
    intros [= <-]. exists t. split; [reflexivity|].
    simpl in W. unfold Spec.Date_wf in W. simpl in W. lia. }
  destruct (Spec.suppliedDate (ProductProps.updatedAt props)) as [u|] eqn:Eu.
  - destruct (G _ Wu _ Eu) as (t & -> & R). exists t. auto.
  - destruct (Spec.suppliedDate (ProductProps.createdAt props))
      as [c|] eqn:Ec.
    + destruct (G _ Wc _ Ec) as (t & -> & R). exists t. auto.
    + exists now. simpl. unfold Spec.Date_wf in Wn. simpl in Wn.
      repeat split. lia.
Qed.

(** C4: for every entity [p], translating to the stored representation
    and back is the identity, [toDomain (toDTO p) = p], the date
    surviving its ISO-8601 form; and on the reference store [save p]
    returns [p] and a following [getById] of [p]'s id returns [p]. *)
Theorem C4_round_trip (p : ProductTs.Product.t) (ms : MemContainer.State) :
  Spec.isEntity p ->
  exists key dto ms1,
    ProductTs.Product.id p = VString key /\
    toDTO p = Return dto /\ toDomain dto = p /\
    @save _ MemContainer.container p ms = (Return p, ms1) /\
    @getById _ MemContainer.container key ms1 = (Return (Some p), ms1).
Proof.
  intros E. destruct (entity_storable p E) as (key & t & I & U & R).
  destruct (toDTO_toDomain p t U R) as (dto & D & T & _).
  destruct (save_then_getById p key t ms I U R) as (ms1 & Sv & G).
  exists key, dto, ms1. auto.
Qed.

Lemma C4_round_trip_witness :
  exists key dto ms1,
    ProductTs.Product.id widgetEntity = VString key /\
    toDTO widgetEntity = Return dto /\ toDomain dto = widgetEntity /\
    @save _ MemContainer.container widgetEntity (MemContainer.empty false)
      = (Return widgetEntity, ms1) /\
    @getById _ MemContainer.container key ms1
      = (Return (Some widgetEntity), ms1).
Proof.
  apply (C4_round_trip widgetEntity (MemContainer.empty false)).
  exists widget, 5000. repeat split.
Defined.

(** * Further properties of the code *)

(** ** The factory *)

Lemma violated_ext (p1 p2 : ProductProps.t) :
  ProductProps.id p1 = ProductProps.id p2 ->
  ProductProps.name p1 = ProductProps.name p2 ->
  ProductProps.price p1 = ProductProps.price p2 ->
  ProductProps.description p1 = ProductProps.description p2 ->
  ProductProps.category p1 = ProductProps.category p2 ->
  Spec.violated p1 = Spec.violated p2.
Proof.
  intros E1 E2 E3 E4 E5. unfold Spec.violated, Spec.rules. simpl.
  now rewrite E1, E2, E3, E4, E5.
Qed.

(** The timestamps and the clock never decide acceptance: two inputs
    that agree on id, name, price, description and category get the same
    error list from the factory, at any two call times and whatever
    their [createdAt] and [updatedAt] are (absent, of another type, or
    invalid dates); so one is accepted exactly when the other is. *)
Theorem errors_ignore_timestamps
  (p1 p2 : ProductProps.t) (n1 n2 : Z) :
  ProductProps.id p1 = ProductProps.id p2 ->
  ProductProps.name p1 = ProductProps.name p2 ->
  ProductProps.price p1 = ProductProps.price p2 ->
  ProductProps.description p1 = ProductProps.description p2 ->
  ProductProps.category p1 = ProductProps.category p2 ->
  Part000.errorsOf (Part000.createProduct p1 n1)
    = Part000.errorsOf (Part000.createProduct p2 n2) /\
  ProductTs.errorsOf (ProductTs.createProduct p1 n1)
    = ProductTs.errorsOf (ProductTs.createProduct p2 n2) /\
  ((exists e, Part000.createProduct p1 n1 = Part000.Success e) <->
   (exists e, Part000.createProduct p2 n2 = Part000.Success e)) /\
  ((exists e, ProductTs.createProduct p1 n1 = ProductTs.Success e) <->
   (exists e, ProductTs.createProduct p2 n2 = ProductTs.Success e)).
Proof.
  intros E1 E2 E3 E4 E5.
  rewrite !Part000_createProduct_eq, !ProductTs_createProduct_eq.
  rewrite (violated_ext p1 p2 E1 E2 E3 E4 E5).
  destruct (Spec.violated p2); simpl.
  - repeat split; intros _; eexists; reflexivity.
  - repeat split; intros [e H]; discriminate.
Qed.

Lemma errors_ignore_timestamps_witness :
  Part000.errorsOf (Part000.createProduct widget 0)
    = Part000.errorsOf
        (Part000.createProduct
           (withUpdatedAt widget (VDate (mkDate None))) 5000).
Proof.
  exact (proj1 (errors_ignore_timestamps
                  widget (withUpdatedAt widget (VDate (mkDate None)))
                  0 5000 eq_refl eq_refl eq_refl eq_refl eq_refl)).
Defined.

(** With a valid [createdAt] supplied, the factory keeps it, whatever
    the clock says.  An [updatedAt] that is missing, of another type or
    an invalid date is replaced by that [createdAt]; a valid [updatedAt]
    is kept as it is, also when it lies before [createdAt]: the two
    dates are never compared. *)
Theorem createdAt_supplied
  (props : ProductProps.t) (now : Z) (c : Date) :
  Spec.violated props = [] ->
  Spec.suppliedDate (ProductProps.createdAt props) = Some c ->
  (Spec.suppliedDate (ProductProps.updatedAt props) = None ->
   (exists p, Part000.createProduct props now = Part000.Success p /\
              Part000.Product.createdAt p = c /\
              Part000.Product.updatedAt p = c) /\
   (exists p, ProductTs.createProduct props now = ProductTs.Success p /\
              ProductTs.Product.updatedAt p = c)) /\
  (forall u, Spec.suppliedDate (ProductProps.updatedAt props) = Some u ->
   (exists p, Part000.createProduct props now = Part000.Success p /\
              Part000.Product.createdAt p = c /\
              Part000.Product.updatedAt p = u) /\
   (exists p, ProductTs.createProduct props now = ProductTs.Success p /\
              ProductTs.Product.updatedAt p = u)).
Proof.
  intros V Cr.
  rewrite Part000_createProduct_eq, ProductTs_createProduct_eq, V.
  rewrite !toDateOrUndefined_spec, Cr. simpl.
  split.
  - intros U. rewrite U. simpl.
    split; eexists; repeat split; reflexivity.
  - intros u U. rewrite U. simpl.
    split; eexists; repeat split; reflexivity.
Qed.

Lemma createdAt_supplied_witness :
  exists p,
    Part000.createProduct widgetBackdated 5000 = Part000.Success p /\
    Part000.Product.createdAt p = mkDate (Some 9000) /\
    Part000.Product.updatedAt p = mkDate (Some 1000).
Proof.
  exact (proj1 (proj2 (createdAt_supplied widgetBackdated 5000
                         (mkDate (Some 9000)) eq_refl eq_refl)
                  (mkDate (Some 1000)) eq_refl)).
Defined.

(** The two copies of the factory agree: on every input and call time
    they fail together, with the same messages, or succeed together, and
    then the entity of [src/domain/product.ts] is the entity of
    [unnamed/part_000] without [category] and [createdAt], its [price]
    stored under [pricePence]. *)
Theorem factory_copies_agree (props : ProductProps.t) (now : Z) :
  match Part000.createProduct props now,
        ProductTs.createProduct props now with
  | Part000.Success p, ProductTs.Success q => q = Views.restrict p
  | Part000.Failure e1, ProductTs.Failure e2 => e1 = e2
  | _, _ => False
  end.
Proof.
  rewrite Part000_createProduct_eq, ProductTs_createProduct_eq.
  destruct (Spec.violated props); reflexivity.
Qed.

Lemma hasNonWhiteSpace_padded (ws1 s ws2 : jsstring) :
  forallb isWhiteSpace ws1 = true ->
  forallb isWhiteSpace ws2 = true ->
  Spec.hasNonWhiteSpace (ws1 ++ s ++ ws2) = Spec.hasNonWhiteSpace s.
Proof.
  intros W1 W2. rewrite !hasNonWhiteSpace_negb, !forallb_app, W1, W2.
  now rewrite andb_true_r.
Qed.

(** The factory trims to validate and not to store.  An id padded with
    whitespace on either side is accepted exactly when the unpadded id
    is, and the entity then carries the padded id, code unit for code
    unit; the same holds for the name. *)
Theorem padding_validated_not_stored
  (props : ProductProps.t) (now : Z) (ws1 s ws2 : jsstring) :
  forallb isWhiteSpace ws1 = true ->
  forallb isWhiteSpace ws2 = true ->
  let padded := VString (ws1 ++ s ++ ws2) in
  (Part000.errorsOf (Part000.createProduct (withId props padded) now)
     = Part000.errorsOf
         (Part000.createProduct (withId props (VString s)) now) /\
   ProductTs.errorsOf (ProductTs.createProduct (withId props padded) now)
     = ProductTs.errorsOf
         (ProductTs.createProduct (withId props (VString s)) now) /\
   Part000.errorsOf (Part000.createProduct (withName props padded) now)
     = Part000.errorsOf
         (Part000.createProduct (withName props (VString s)) now) /\
   ProductTs.errorsOf (ProductTs.createProduct (withName props padded) now)
     = ProductTs.errorsOf
         (ProductTs.createProduct (withName props (VString s)) now)) /\
  (forall p, Part000.createProduct (withId props padded) now
               = Part000.Success p ->
             Part000.Product.id p = padded) /\
  (forall p, ProductTs.createProduct (withId props padded) now
               = ProductTs.Success p ->
             ProductTs.Product.id p = padded) /\
  (forall p, Part000.createProduct (withName props padded) now
               = Part000.Success p ->
             Part000.Product.name p = padded) /\
  (forall p, ProductTs.createProduct (withName props padded) now
               = ProductTs.Success p ->
             ProductTs.Product.name p = padded).
Proof.
  intros W1 W2 padded.
  assert (Vi : Spec.violated (withId props padded)
               = Spec.violated (withId props (VString s))).
  { unfold Spec.violated, Spec.rules, padded. simpl.
    now rewrite (hasNonWhiteSpace_padded ws1 s ws2 W1 W2). }
  assert (Vn : Spec.violated (withName props padded)
               = Spec.violated (withName props (VString s))).
  { unfold Spec.violated, Spec.rules, padded. simpl.
    now rewrite (hasNonWhiteSpace_padded ws1 s ws2 W1 W2). }
  rewrite !Part000_createProduct_eq, !ProductTs_createProduct_eq.
  rewrite Vi, Vn.
  split.
  - destruct (Spec.violated (withId props (VString s)));
      destruct (Spec.violated (withName props (VString s)));
      repeat split.
  - destruct (Spec.violated (withId props (VString s)));
      destruct (Spec.violated (withName props (VString s)));
      repeat split; intros p [= <-]; reflexivity.
Qed.

Lemma padding_validated_not_stored_witness :
  ProductTs.errorsOf
    (ProductTs.createProduct (withId widget (VString (str " p1 "))) 0)
  = ProductTs.errorsOf
      (ProductTs.createProduct (withId widget (VString (str "p1"))) 0).
Proof.
  exact (proj1 (proj2 (proj1
           (padding_validated_not_stored widget 0
              (str " ") (str "p1") (str " ") eq_refl eq_refl)))).
Defined.

(** ** The factory and the throwing validator *)

Lemma nonNegativeInteger_finite (v : JSValue) :
  Spec.isNonNegativeInteger v -> Spec.isFiniteNonNegativeNumber v = true.
Proof.
  intros (x & n & -> & Hn & D). simpl.
  unfold Spec.denotesInteger in D. unfold Spec.finiteNonNegative.
  destruct (Prim2SF x) as [s|s| |s m e]; try contradiction; [reflexivity|].
  destruct s; [exfalso|reflexivity].
  destruct (0 <=? e) eqn:E.
  - apply Z.leb_le in E.
    assert (0 < 2 ^ e) by (apply Z.pow_pos_nonneg; lia). nia.
  - apply Z.leb_gt in E.
    assert (0 < 2 ^ (- e)) by (apply Z.pow_pos_nonneg; lia). nia.
Qed.

Lemma validateProduct_eq (q : ProductTs.CreateProductParams.t) :
  ProductTs.validateProduct q =
  if negb (Spec.isNonBlankString (ProductTs.CreateProductParams.id q))
  then Throw ValidatorSpec.idError
  else if negb (Spec.isNonBlankString
                  (ProductTs.CreateProductParams.name q))
  then Throw ValidatorSpec.nameError
  else if negb (String.eqb
                  (typeof (ProductTs.CreateProductParams.pricePence q))
                  "number")
          || ProductTs.ltZero (ProductTs.CreateProductParams.pricePence q)
          || negb (ProductTs.isInteger
                     (ProductTs.CreateProductParams.pricePence q))
  then Throw ValidatorSpec.pricePenceError
  else if negb (Spec.isNonBlankString
                  (ProductTs.CreateProductParams.description q))
  then Throw ValidatorSpec.descriptionError
  else if negb (Spec.isValidDate
                  (ProductTs.CreateProductParams.updatedAt q))
  then Throw ValidatorSpec.updatedAtError
  else Return tt.
Proof.
  unfold ProductTs.validateProduct.
  now rewrite !string_check_spec, date_check_spec.
Qed.

Lemma price_check_cases (v : JSValue) :
  (negb (String.eqb (typeof v) "number") || ProductTs.ltZero v
   || negb (ProductTs.isInteger v) = false /\ Spec.isNonNegativeInteger v)
  \/
  (negb (String.eqb (typeof v) "number") || ProductTs.ltZero v
   || negb (ProductTs.isInteger v) = true /\ ~ Spec.isNonNegativeInteger v).
Proof.
  pose proof (price_check_spec v) as P.
  destruct (negb (String.eqb (typeof v) "number") || ProductTs.ltZero v
            || negb (ProductTs.isInteger v)).
  - right. split; [reflexivity|]. intros A. apply P in A. discriminate.
  - left. split; [reflexivity|]. now apply P.
Qed.

(** An entity of the factory does not always pass the validator of the
    same file.  The entity built from [props] passes [validateProduct]
    exactly when the price is a non-negative integer and the description
    is a string with a non-whitespace character; otherwise the validator
    throws for [pricePence], or else for [description] (so an entity
    built without a description is always refused). *)
Theorem factory_entity_validation
  (props : ProductProps.t) (now : Z) (p : ProductTs.Product.t) :
  ProductTs.createProduct props now = ProductTs.Success p ->
  (ProductTs.validateProduct (Views.asParams p) = Return tt <->
   Spec.isNonNegativeInteger (ProductProps.price props) /\
   Spec.isNonBlankString (ProductProps.description props) = true) /\
  (~ Spec.isNonNegativeInteger (ProductProps.price props) ->
   ProductTs.validateProduct (Views.asParams p)
     = Throw ValidatorSpec.pricePenceError) /\
  (Spec.isNonNegativeInteger (ProductProps.price props) ->
   Spec.isNonBlankString (ProductProps.description props) = false ->
   ProductTs.validateProduct (Views.asParams p)
     = Throw ValidatorSpec.descriptionError).
Proof.
  intros E. rewrite ProductTs_createProduct_eq in E.
  destruct (Spec.violated props) eqn:V; [|discriminate].
  injection E as <-.
  pose proof (proj1 (violated_nil props) V) as A.
  pose proof (A Spec.RuleId) as A1. pose proof (A Spec.RuleName) as A2.
  simpl in A1, A2.
  rewrite validateProduct_eq. unfold Views.asParams. simpl.
  rewrite A1, A2. simpl.
  rewrite !toDateOrUndefined_spec.
  assert (U : Spec.isValidDate
                (VDate
                   (orElse
                      (Spec.suppliedDate (ProductProps.updatedAt props))
                      (orElse
                         (Spec.suppliedDate (ProductProps.createdAt props))
                         (Date_now now)))) = true).
  { destruct (Spec.suppliedDate (ProductProps.updatedAt props)) eqn:Eu;
      simpl.
    - now apply suppliedDate_valid in Eu.
    - now destruct (Spec.suppliedDate (ProductProps.createdAt props))
        as [[[t|]]|] eqn:Ec; simpl;
        try (apply suppliedDate_valid in Ec; simpl in Ec). }
  simpl in U. rewrite U.
  destruct (price_check_cases (ProductProps.price props)) as [[-> P]|[-> P]];
    destruct (Spec.isNonBlankString (ProductProps.description props));
    simpl; repeat split; intros; try tauto; try discriminate;
    try (exfalso; tauto);
    repeat match goal with H : _ /\ _ |- _ => destruct H end;
    discriminate.
Qed.

Lemma factory_entity_validation_witness :
  ProductTs.validateProduct (Views.asParams widgetEntity)
  = Throw ValidatorSpec.pricePenceError.
Proof.
  refine (proj1 (proj2 (factory_entity_validation
                          widget 5000 widgetEntity eq_refl)) _).
  intros A. apply price_check_spec in A. vm_compute in A. discriminate.
Defined.

(** Whatever the validator accepts the factory accepts: parameters on
    which [validateProduct] returns, handed to [createProduct] as
    [{id, name, price: pricePence, description, updatedAt}], give a
    success at any call time, and the entity carries exactly these
    parameters. *)
Theorem validated_params_constructible
  (q : ProductTs.CreateProductParams.t) (now : Z) :
  ProductTs.validateProduct q = Return tt ->
  exists p,
    ProductTs.createProduct (Views.asProps q) now = ProductTs.Success p /\
    Views.asParams p = q.
Proof.
  rewrite validateProduct_eq. intros E.
  destruct (Spec.isNonBlankString (ProductTs.CreateProductParams.id q))
    eqn:A1; [|discriminate].
  destruct (Spec.isNonBlankString (ProductTs.CreateProductParams.name q))
    eqn:A2; [|discriminate].
  simpl in E.
  destruct (price_check_cases (ProductTs.CreateProductParams.pricePence q))
    as [[P1 P]|[P1 P]]; rewrite P1 in E; [|discriminate].
  destruct (Spec.isNonBlankString
              (ProductTs.CreateProductParams.description q))
    eqn:A4; [|discriminate].
  destruct (Spec.isValidDate (ProductTs.CreateProductParams.updatedAt q))
    eqn:A5; [|discriminate].
  rewrite ProductTs_createProduct_eq.
  assert (V : Spec.violated (Views.asProps q) = []).
  { apply violated_nil. intros r. destruct r; simpl; auto.
    - now apply nonNegativeInteger_finite.
    - now destruct (ProductTs.CreateProductParams.description q). }
  rewrite V. eexists. split; [reflexivity|].
  destruct q as [i n pr de up]. simpl in *.
  destruct up as [| | | | |[[t|]]|]; try discriminate. reflexivity.
Qed.

Lemma validated_params_constructible_witness :
  exists p,
    ProductTs.createProduct (Views.asProps goodParams) 0
      = ProductTs.Success p /\
    Views.asParams p = goodParams.
Proof.
  apply (validated_params_constructible goodParams 0). reflexivity.
Defined.

(** ** The adapter: writing *)

(** How [save] fails, for any container.  A product whose [updatedAt] is
    an invalid date is refused with a RangeError before the backend is
    called, the store being left as it was.  Otherwise [save] fails
    exactly when the backend's upsert does, with the value it threw:
    unlike [getById] and [delete], [save] passes on a 404 as well. *)
Theorem save_failures
  (S : Type) (C : Container S) (p : ProductTs.Product.t) (st : S) :
  (DateValue (ProductTs.Product.updatedAt p) = None ->
   exists msg, save p st = (Throw (RangeError msg), st)) /\
  (forall e st',
     save p st = (Throw e, st') <->
     (toDTO p = Throw e /\ st' = st) \/
     (exists dto, toDTO p = Return dto /\
                  items_upsert dto st = (Throw e, st'))).
Proof.
  split.
  - intros E. run_async. unfold toDTO, toISOString. rewrite E. eauto.
  - intros e st'. run_async.
    destruct (toDTO p) as [dto|e0].
    + destruct (items_upsert dto st) as [[[r|]|e1] st1] eqn:U.
      * split; [discriminate|].
        intros [[? _]|(d & [= <-] & U')]; [discriminate|].
        rewrite U in U'. discriminate.
      * split; [discriminate|].
        intros [[? _]|(d & [= <-] & U')]; [discriminate|].
        rewrite U in U'. discriminate.
      * split.
        -- intros [= <- <-]. right. eauto.
        -- intros [[? _]|(d & [= <-] & U')]; [discriminate|].
           rewrite U in U'. now injection U' as <- <-.
    + split.
      * intros [= <- <-]. left. auto.
      * intros [[[= <-] ->]|(d & ? & _)]; [reflexivity|discriminate].
Qed.

Lemma save_failures_witness :
  exists msg,
    @save _ MemContainer.container
      (ProductTs.Product.mk (VString (str "p1")) (VString (str "Widget"))
         (VNumber 5%float) VUndefined (mkDate None))
      (MemContainer.empty false)
    = (Throw (RangeError msg), MemContainer.empty false).
Proof.
  exact (proj1 (save_failures MemContainer.State MemContainer.container
                  (ProductTs.Product.mk (VString (str "p1"))
                     (VString (str "Widget")) (VNumber 5%float)
                     VUndefined (mkDate None))
                  (MemContainer.empty false))
           eq_refl).
Defined.

(** What [save] returns, for any container: the backend's document
    translated to the domain, or, when the backend answers without a
    resource, the very product it was given. *)
Theorem save_returns
  (S : Type) (C : Container S) (p r : ProductTs.Product.t) (st st' : S) :
  save p st = (Return r, st') <->
  exists dto,
    toDTO p = Return dto /\
    ((items_upsert dto st = (Return None, st') /\ r = p) \/
     (exists d, items_upsert dto st = (Return (Some d), st') /\
                r = toDomain d)).
Proof.
  run_async.
  destruct (toDTO p) as [dto|e0].
  - destruct (items_upsert dto st) as [[[d|]|e1] st1] eqn:U.
    + split.
      * intros [= <- <-]. exists dto. split; [reflexivity|]. right. eauto.
      * intros (d0 & [= <-] & [[U' _]|(d1 & U' & ->)]);
          rewrite U in U'; [discriminate|].
        now injection U' as <- <-.
    + split.
      * intros [= <- <-]. exists dto. split; [reflexivity|]. left. auto.
      * intros (d0 & [= <-] & [[U' ->]|(d1 & U' & _)]);
          rewrite U in U'; [|discriminate].
        now injection U' as <-.
    + split; [discriminate|].
      intros (d0 & [= <-] & [[U' _]|(d1 & U' & _)]);
        rewrite U in U'; discriminate.
  - split; [discriminate|]. intros (d0 & ? & _). discriminate.
Qed.

(** The stored representation loses nothing: two products whose dates
    are within the language's range and that [toDTO] maps to the same
    document are the same product. *)
Theorem toDTO_injective
  (p1 p2 : ProductTs.Product.t) (dto : ProductDTO.t) :
  Spec.Date_wf (ProductTs.Product.updatedAt p1) = true ->
  Spec.Date_wf (ProductTs.Product.updatedAt p2) = true ->
  toDTO p1 = Return dto -> toDTO p2 = Return dto -> p1 = p2.
Proof.
  assert (G : forall p, Spec.Date_wf (ProductTs.Product.updatedAt p) = true ->
                        toDTO p = Return dto -> toDomain dto = p).
  { intros p W E.
    destruct (DateValue (ProductTs.Product.updatedAt p)) as [t|] eqn:D.
    - assert (U : ProductTs.Product.updatedAt p = mkDate (Some t))
        by (destruct (ProductTs.Product.updatedAt p); simpl in D; congruence).
      unfold Spec.Date_wf in W. rewrite D in W. apply Z.leb_le in W.
      destruct (toDTO_toDomain p t U W) as (d & E' & T & _).
      congruence.
    - unfold toDTO, toISOString in E. rewrite D in E. discriminate. }
  intros W1 W2 E1 E2. rewrite <- (G p1 W1 E1). now apply G.
Qed.

Lemma toDTO_injective_witness : widgetEntity = toDomain widgetDTO.
Proof.
  apply (toDTO_injective widgetEntity (toDomain widgetDTO) widgetDTO);
    vm_compute; reflexivity.
Defined.

(** ** The adapter on the reference store *)

Lemma map_fmap_eq {A B : Type} (f : A -> B) (l : Datatypes.list A) :
  map f l = f <$> l.
Proof. induction l as [|a l IH]; simpl; [reflexivity|now rewrite IH]. Qed.

Lemma toDTO_id (p : ProductTs.Product.t) (dto : ProductDTO.t) :
  toDTO p = Return dto -> ProductDTO.id dto = ProductTs.Product.id p.
Proof.
  unfold toDTO. destruct (toISOString _); [|discriminate].
  now intros [= <-].
Qed.

Lemma exec_Save_docs (st : MemContainer.State) (p : ProductTs.Product.t) :
  MemContainer.docs (MemRepo.exec st (MemRepo.Save p)) =
  match toDTO p, ProductTs.Product.id p with
  | Return dto, VString key =>
      <[key := MemContainer.stamp st dto]> (MemContainer.docs st)
  | _, _ => MemContainer.docs st
  end.
Proof.
  unfold MemRepo.exec. run_async.
  destruct (toDTO p) as [dto|e] eqn:E; [|reflexivity].
  simpl. unfold MemContainer.upsert. rewrite (toDTO_id p dto E).
  destruct (ProductTs.Product.id p); reflexivity.
Qed.

Lemma exec_Delete_docs (st : MemContainer.State) (k : jsstring) :
  MemContainer.docs (MemRepo.exec st (MemRepo.Delete k))
  = base.delete k (MemContainer.docs st).
Proof.
  unfold MemRepo.exec. run_async. simpl. unfold MemContainer.remove.
  destruct (MemContainer.docs st !! k) eqn:E; simpl; [reflexivity|].
  symmetry. now apply delete_id.
Qed.

Lemma exec_reads (st : MemContainer.State) (k : jsstring) :
  MemRepo.exec st (MemRepo.GetById k) = st /\
  MemRepo.exec st MemRepo.List = st.
Proof.
  unfold MemRepo.exec. run_async. unfold list, mbind, Async_bind, await.
  simpl. unfold MemContainer.read.
  destruct (MemContainer.docs st !! k);
    [|destruct (MemContainer.readThrowsOnMissing st)]; auto.
Qed.

Lemma Mem_getById (st : MemContainer.State) (k : jsstring) :
  @getById _ MemContainer.container k st
  = (Return (toDomain <$> (MemContainer.docs st !! k)), st).
Proof.
  run_async. simpl. unfold MemContainer.read.
  destruct (MemContainer.docs st !! k);
    [|destruct (MemContainer.readThrowsOnMissing st)]; reflexivity.
Qed.

Lemma Mem_list (st : MemContainer.State) :
  @list _ MemContainer.container st
  = (Return (map toDomain (map snd (map_to_list (MemContainer.docs st)))),
     st).
Proof. reflexivity. Qed.

Lemma In_listed (m : gmap jsstring ProductDTO.t) (p : ProductTs.Product.t) :
  In p (map toDomain (map snd (map_to_list m))) <->
  exists k dto, m !! k = Some dto /\ toDomain dto = p.
Proof.
  rewrite in_map_iff. split.
  - intros (d & T & I). apply in_map_iff in I.
    destruct I as ([k d'] & E & I). simpl in E. subst d'.
    apply list_elem_of_In, elem_of_map_to_list in I. eauto.
  - intros (k & d & L & T). exists d. split; [exact T|].
    apply in_map_iff. exists (k, d). split; [reflexivity|].
    now apply list_elem_of_In, elem_of_map_to_list.
Qed.

Lemma keyed_exec (st : MemContainer.State) (op : MemRepo.Op) :
  MemRepo.keyed st -> MemRepo.keyed (MemRepo.exec st op).
Proof.
  intros K. destruct op as [p|k|k|].
  - unfold MemRepo.keyed. rewrite exec_Save_docs.
    destruct (toDTO p) as [dto|e] eqn:E; [|exact K].
    destruct (ProductTs.Product.id p) as [| | | |key| |] eqn:I;
      try exact K.
    intros k d L. destruct (decide (key = k)) as [->|N].
    + rewrite lookup_insert_eq in L. injection L as <-. simpl.
      now rewrite (toDTO_id p dto E).
    + rewrite lookup_insert_ne in L by exact N. now apply K.
  - unfold MemRepo.keyed. rewrite exec_Delete_docs. intros k' d L.
    destruct (decide (k = k')) as [->|N].
    + now rewrite lookup_delete_eq in L.
    + rewrite lookup_delete_ne in L by exact N. now apply K.
  - now rewrite (proj1 (exec_reads st k)).
  - now rewrite (proj2 (exec_reads st [])).
Qed.

Lemma keyed_execAll (ops : Datatypes.list MemRepo.Op)
  (st : MemContainer.State) :
  MemRepo.keyed st -> MemRepo.keyed (MemRepo.execAll ops st).
Proof.
  revert st. induction ops as [|op ops IH]; intros st K; [exact K|].
  simpl. apply IH. now apply keyed_exec.
Qed.

Lemma NoDup_map_VString (l : Datatypes.list jsstring) :
  NoDup l -> NoDup (map VString l).
Proof.
  induction 1 as [|k l N _ IH]; simpl; constructor; [|exact IH].
  intros I. apply in_map_iff in I. destruct I as (k' & [= ->] & I).
  now apply N.
Qed.

(** Every document sits under its own id, whatever is done through the
    adapter.  After any sequence of [save], [delete], [getById] and
    [list] on an empty store, a product that [getById id] returns has
    the id [id], and [list] never returns two products with the same
    id. *)
Theorem ids_are_keys
  (ops : Datatypes.list MemRepo.Op) (throws : bool) :
  MemRepo.keyed (MemRepo.execAll ops (MemContainer.empty throws)) /\
  (forall id p st',
     @getById _ MemContainer.container id
       (MemRepo.execAll ops (MemContainer.empty throws))
       = (Return (Some p), st') ->
     ProductTs.Product.id p = VString id) /\
  (forall ps st',
     @list _ MemContainer.container
       (MemRepo.execAll ops (MemContainer.empty throws))
       = (Return ps, st') ->
     NoDup (map ProductTs.Product.id ps)).
Proof.
  assert (K : MemRepo.keyed
                (MemRepo.execAll ops (MemContainer.empty throws))).
  { apply keyed_execAll. intros k d L. simpl in L.
    now rewrite lookup_empty in L. }
  set (st := MemRepo.execAll ops (MemContainer.empty throws)) in *.
  split; [exact K|]. split.
  - intros id p st'. rewrite Mem_getById.
    destruct (MemContainer.docs st !! id) as [d|] eqn:L; [|discriminate].
    intros [= <- _]. simpl. now apply K.
  - intros ps st'. rewrite Mem_list. intros [= <- _].
    rewrite !map_map.
    rewrite (map_ext_in _ (fun kd => VString (fst kd))).
    + rewrite <- (map_map fst VString). apply NoDup_map_VString.
      rewrite map_fmap_eq. apply NoDup_ListNoDup, NoDup_fst_map_to_list.
    + intros [k d] I. simpl. apply K.
      now apply list_elem_of_In, elem_of_map_to_list in I.
Qed.

(** [list] and [getById] see the same store: [list] returns, leaves the
    store as it is, gives one product per stored document, and a product
    is in the list exactly when [getById] returns it for some id. *)
Theorem list_getById_consistent (st : MemContainer.State) :
  exists ps,
    @list _ MemContainer.container st = (Return ps, st) /\
    List.length ps = size (MemContainer.docs st) /\
    forall p,
      In p ps <->
      exists id, @getById _ MemContainer.container id st
                 = (Return (Some p), st).
Proof.
  eexists. split; [apply Mem_list|]. split.
  - rewrite !length_map. apply length_map_to_list.
  - intros p. rewrite In_listed. split.
    + intros (k & d & L & T). exists k. rewrite Mem_getById, L. simpl.
      now rewrite T.
    + intros (k & G). rewrite Mem_getById in G.
      destruct (MemContainer.docs st !! k) as [d|] eqn:L; [|discriminate].
      injection G as <-. eauto.
Qed.

(** An operation touches its own id only.  [getById] and [list] leave
    the store unchanged; after [save] of a product with another id, or
    [delete] of another id, [getById id] answers as before, also when
    that operation failed. *)
Theorem other_ids_untouched
  (st : MemContainer.State) (op : MemRepo.Op) (id : jsstring) :
  match op with
  | MemRepo.Save p => ProductTs.Product.id p <> VString id
  | MemRepo.Delete id' => id' <> id
  | MemRepo.GetById _ | MemRepo.List => True
  end ->
  fst (@getById _ MemContainer.container id (MemRepo.exec st op))
    = fst (@getById _ MemContainer.container id st) /\
  match op with
  | MemRepo.GetById _ | MemRepo.List => MemRepo.exec st op = st
  | _ => True
  end.
Proof.
  intros H. rewrite !Mem_getById. simpl.
  destruct op as [p|k|k|].
  - split; [|exact I]. rewrite exec_Save_docs.
    destruct (toDTO p); [|reflexivity].
    destruct (ProductTs.Product.id p) as [| | | |key| |]; try reflexivity.
    rewrite lookup_insert_ne; [reflexivity|congruence].
  - split; [|exact I]. rewrite exec_Delete_docs.
    now rewrite lookup_delete_ne.
  - rewrite (proj1 (exec_reads st k)). auto.
  - rewrite (proj2 (exec_reads st [])). auto.
Qed.

Lemma other_ids_untouched_witness :
  fst (@getById _ MemContainer.container (str "p2")
         (MemRepo.exec (MemContainer.empty false)
            (MemRepo.Save widgetEntity)))
  = fst (@getById _ MemContainer.container (str "p2")
           (MemContainer.empty false)).
Proof.
  refine (proj1 (other_ids_untouched (MemContainer.empty false)
                   (MemRepo.Save widgetEntity) (str "p2") _)).
  discriminate.
Defined.

(** [save] is an upsert.  For a product with a string id and a valid
    date, [list] after [save] contains the product; it is one longer
    than before when the id was absent and as long as before when the
    id was present; and every other product in it was listed before. *)
Theorem save_upserts
  (st : MemContainer.State) (p : ProductTs.Product.t)
  (key : jsstring) (t : Z) :
  ProductTs.Product.id p = VString key ->
  ProductTs.Product.updatedAt p = mkDate (Some t) ->
  Z.abs t <= 8640000000000000 ->
  exists ps ps',
    @list _ MemContainer.container st = (Return ps, st) /\
    @list _ MemContainer.container (MemRepo.exec st (MemRepo.Save p))
      = (Return ps', MemRepo.exec st (MemRepo.Save p)) /\
    In p ps' /\
    List.length ps' =
      match MemContainer.docs st !! key with
      | Some _ => List.length ps
      | None => Datatypes.S (List.length ps)
      end /\
    forall q, In q ps' -> q = p \/ In q ps.
Proof.
  intros Hi Hu R.
  destruct (toDTO_toDomain p t Hu R) as (dto & D & _ & _ & St).
  eexists _, _. split; [apply Mem_list|]. split; [apply Mem_list|].
  rewrite exec_Save_docs, D, Hi.
  split; [|split].
  - apply In_listed. exists key, (MemContainer.stamp st dto).
    split; [apply lookup_insert_eq|apply St].
  - rewrite !length_map, !length_map_to_list, map_size_insert.
    now destruct (MemContainer.docs st !! key).
  - intros q Hq. apply In_listed in Hq. destruct Hq as (k & d & L & T).
    destruct (decide (key = k)) as [->|N].
    + rewrite lookup_insert_eq in L. injection L as <-.
      left. now rewrite <- T, St.
    + rewrite lookup_insert_ne in L by exact N.
      right. apply In_listed. eauto.
Qed.

Lemma save_upserts_witness :
  exists ps ps',
    @list _ MemContainer.container (MemContainer.empty false)
      = (Return ps, MemContainer.empty false) /\
    @list _ MemContainer.container
      (MemRepo.exec (MemContainer.empty false) (MemRepo.Save widgetEntity))
      = (Return ps',
         MemRepo.exec (MemContainer.empty false)
           (MemRepo.Save widgetEntity)) /\
    In widgetEntity ps' /\
    List.length ps' =
      match MemContainer.docs (MemContainer.empty false) !! str "p1" with
      | Some _ => List.length ps
      | None => Datatypes.S (List.length ps)
      end /\
    forall q, In q ps' -> q = widgetEntity \/ In q ps.
Proof.
  apply (save_upserts (MemContainer.empty false) widgetEntity
           (str "p1") 5000); [reflexivity|reflexivity|simpl; lia].
Defined.

(** [delete] removes one document at most.  After [delete id] the list
    is one shorter when the id was present and unchanged in length when
    it was absent, it holds only products that were listed before, and,
    on a store where every document sits under its own id, it holds no
    product with the id [id]. *)
Theorem delete_removes
  (st : MemContainer.State) (id : jsstring) :
  exists ps ps',
    @list _ MemContainer.container st = (Return ps, st) /\
    @list _ MemContainer.container (MemRepo.exec st (MemRepo.Delete id))
      = (Return ps', MemRepo.exec st (MemRepo.Delete id)) /\
    List.length ps =
      match MemContainer.docs st !! id with
      | Some _ => Datatypes.S (List.length ps')
      | None => List.length ps'
      end /\
    (forall q, In q ps' -> In q ps) /\
    (MemRepo.keyed st ->
     forall q, In q ps' -> ProductTs.Product.id q <> VString id).
Proof.
  eexists _, _. split; [apply Mem_list|]. split; [apply Mem_list|].
  rewrite exec_Delete_docs. split; [|split].
  - rewrite !length_map, !length_map_to_list.
    destruct (MemContainer.docs st !! id) eqn:L.
    + rewrite map_size_delete, L.
      assert (size (MemContainer.docs st) <> 0%nat).
      { intros Z0. apply map_size_empty_inv in Z0.
        rewrite Z0, lookup_empty in L. discriminate. }
      simpl. lia.
    + now rewrite map_size_delete, L.
  - intros q Hq. apply In_listed in Hq. destruct Hq as (k & d & L & T).
    apply In_listed. exists k, d. split; [|exact T].
    destruct (decide (id = k)) as [->|N].
    + now rewrite lookup_delete_eq in L.
    + now rewrite lookup_delete_ne in L.
  - intros K q Hq E. apply In_listed in Hq.
    destruct Hq as (k & d & L & T).
    destruct (decide (id = k)) as [->|N].
    + now rewrite lookup_delete_eq in L.
    + rewrite lookup_delete_ne in L by exact N.
      apply K in L. rewrite <- T in E. simpl in E. congruence.
Qed.

(** ** The adapter's constructor *)

(** Which client the adapter talks to.  An injected client is used as it
    is, whatever [endpoint], [key] and [clientOptions] say.  Without one,
    a client is built from options in which every property of
    [clientOptions] is passed on, also [endpoint] and [key] when
    [clientOptions] has them: the top-level [endpoint] and [key] are used
    only where [clientOptions] does not set them. *)
Theorem constructor_client
  (CosmosClient ContainerRef : Type)
  (newCosmosClient : gmap jsstring JSValue -> CosmosClient)
  (database_container : CosmosClient -> jsstring -> jsstring -> ContainerRef)
  (opts : CosmosProductRepoOptions.t CosmosClient) :
  (forall c,
     CosmosProductRepoOptions.client opts = Some c ->
     CosmosProductRepoOptions.constructor
       newCosmosClient database_container opts
     = database_container c
         (CosmosProductRepoOptions.databaseId opts)
         (CosmosProductRepoOptions.containerId opts)) /\
  (CosmosProductRepoOptions.client opts = None ->
   exists cfg,
     CosmosProductRepoOptions.constructor
       newCosmosClient database_container opts
     = database_container (newCosmosClient cfg)
         (CosmosProductRepoOptions.databaseId opts)
         (CosmosProductRepoOptions.containerId opts) /\
     (forall k v,
        default ∅ (CosmosProductRepoOptions.clientOptions opts) !! k
          = Some v ->
        cfg !! k = Some v) /\
     (default ∅ (CosmosProductRepoOptions.clientOptions opts)
        !! str "endpoint" = None ->
      cfg !! str "endpoint"
        = Some (CosmosProductRepoOptions.endpoint opts)) /\
     (default ∅ (CosmosProductRepoOptions.clientOptions opts)
        !! str "key" = None ->
      cfg !! str "key" = Some (CosmosProductRepoOptions.key opts)) /\
     (forall k, k <> str "endpoint" -> k <> str "key" ->
        cfg !! k
        = default ∅ (CosmosProductRepoOptions.clientOptions opts) !! k)).
Proof.
  unfold CosmosProductRepoOptions.constructor. split.
  - now intros c ->.
  - intros ->. eexists. split; [reflexivity|].
    unfold CosmosProductRepoOptions.newClientOptions.
    set (o := default ∅ (CosmosProductRepoOptions.clientOptions opts)).
    split; [|split; [|split]].
    + intros k v L. now apply lookup_union_Some_l.
    + intros N. rewrite lookup_union_r by exact N.
      rewrite lookup_insert_ne by discriminate.
      apply lookup_insert_eq.
    + intros N. rewrite lookup_union_r by exact N.
      apply lookup_insert_eq.
    + intros k N1 N2. rewrite lookup_union.
      rewrite lookup_insert_ne by congruence.
      rewrite lookup_insert_ne by congruence.
      rewrite lookup_empty. now destruct (o !! k).
Qed.

Lemma constructor_client_witness :
  exists cfg : gmap jsstring JSValue,
    CosmosProductRepoOptions.constructor
      (fun o => o) (fun c d k => (c, d, k))
      (@CosmosProductRepoOptions.mk (gmap jsstring JSValue)
         (VString (str "https://a")) (VString (str "k1"))
         (str "db") (str "products") None
         (Some (<[str "endpoint" := VString (str "https://b")]> ∅)))
    = (cfg, str "db", str "products") /\
    cfg !! str "endpoint" = Some (VString (str "https://b")) /\
    cfg !! str "key" = Some (VString (str "k1")).
Proof.
  destruct (proj2 (constructor_client
                     (gmap jsstring JSValue)
                     (gmap jsstring JSValue * jsstring * jsstring)
                     (fun o => o) (fun c d k => (c, d, k))
                     (@CosmosProductRepoOptions.mk (gmap jsstring JSValue)
                        (VString (str "https://a")) (VString (str "k1"))
                        (str "db") (str "products") None
                        (Some (<[str "endpoint" :=
                                  VString (str "https://b")]> ∅))))
             eq_refl) as (cfg & E & A & _ & B & _).
  exists cfg. split; [exact E|]. split.
  - apply A. apply lookup_insert_eq.
  - apply B. reflexivity.
Defined.

(** ** Reading and writing back *)

Lemma canonical_exec (st : MemContainer.State) (op : MemRepo.Op) :
  MemRepo.opWf op -> MemRepo.canonical st ->
  MemRepo.canonical (MemRepo.exec st op).
Proof.
  intros W K. destruct op as [p|k|k|].
  - unfold MemRepo.canonical. rewrite exec_Save_docs.
    destruct (toDTO p) as [dto|e] eqn:E; [|exact K].
    destruct (ProductTs.Product.id p) as [| | | |key| |] eqn:I;
      try exact K.
    intros k d L. destruct (decide (key = k)) as [->|N].
    + rewrite lookup_insert_eq in L. injection L as <-. simpl.
      simpl in W. unfold Spec.Date_wf in W.
      unfold toDTO, toISOString in E.
      destruct (DateValue (ProductTs.Product.updatedAt p)) as [t|];
        [|discriminate].
      injection E as <-. simpl. exists t. split; [lia|reflexivity].
    + rewrite lookup_insert_ne in L by exact N. now apply (K k).
  - unfold MemRepo.canonical. rewrite exec_Delete_docs. intros k' d L.
    destruct (decide (k = k')) as [->|N].
    + now rewrite lookup_delete_eq in L.
    + rewrite lookup_delete_ne in L by exact N. now apply (K k').
  - now rewrite (proj1 (exec_reads st k)).
  - now rewrite (proj2 (exec_reads st [])).
Qed.

Lemma canonical_execAll (ops : Datatypes.list MemRepo.Op)
  (st : MemContainer.State) :
  Forall MemRepo.opWf ops -> MemRepo.canonical st ->
  MemRepo.canonical (MemRepo.execAll ops st).
Proof.
  intros F. revert st. induction F as [|op ops W _ IH]; intros st K;
    [exact K|].
  simpl. apply IH. now apply canonical_exec.
Qed.

(** Reading a product and saving it back changes nothing that the
    domain can see.  On a store filled through the adapter only, a
    product that [getById] returns is accepted by [save], which returns
    it unchanged, and [list] holds the same products afterwards as
    before: what [toDomain] reads from a document that [toDTO] wrote,
    [toDTO] writes back. *)
Theorem read_then_save
  (ops : Datatypes.list MemRepo.Op) (throws : bool)
  (id : jsstring) (p : ProductTs.Product.t) :
  Forall MemRepo.opWf ops ->
  @getById _ MemContainer.container id
    (MemRepo.execAll ops (MemContainer.empty throws))
    = (Return (Some p), MemRepo.execAll ops (MemContainer.empty throws)) ->
  exists st1 ps ps1,
    @save _ MemContainer.container p
      (MemRepo.execAll ops (MemContainer.empty throws))
      = (Return p, st1) /\
    @list _ MemContainer.container
      (MemRepo.execAll ops (MemContainer.empty throws))
      = (Return ps, MemRepo.execAll ops (MemContainer.empty throws)) /\
    @list _ MemContainer.container st1 = (Return ps1, st1) /\
    forall q, In q ps1 <-> In q ps.
Proof.
  intros F G.
  assert (E0 : forall k (d : ProductDTO.t),
            MemContainer.docs (MemContainer.empty throws) !! k = Some d ->
            False).
  { intros k d L. simpl in L. now rewrite lookup_empty in L. }
  assert (K : MemRepo.keyed
                (MemRepo.execAll ops (MemContainer.empty throws))).
  { apply keyed_execAll. intros k d L. now apply E0 in L. }
  assert (Cn : MemRepo.canonical
                 (MemRepo.execAll ops (MemContainer.empty throws))).
  { apply canonical_execAll; [exact F|]. intros k d L. now apply E0 in L. }
  set (st := MemRepo.execAll ops (MemContainer.empty throws)) in *.
  rewrite Mem_getById in G.
  destruct (MemContainer.docs st !! id) as [d|] eqn:L; [|discriminate].
  injection G as <-.
  destruct (Cn id d L) as (t & R & Iso).
  assert (Hu : ProductTs.Product.updatedAt (toDomain d) = mkDate (Some t)).
  { unfold toDomain, Date_ofString. simpl.
    now rewrite Iso, parseISO_formatISO. }
  assert (Hi : ProductTs.Product.id (toDomain d) = VString id)
    by (simpl; now apply K).
  destruct (toDTO_toDomain (toDomain d) t Hu R) as (dto & D & _ & Di & St).
  exists (MemContainer.mkState
            (<[id := MemContainer.stamp st dto]> (MemContainer.docs st))
            (MemContainer.readThrowsOnMissing st)
            (MemContainer.serverTime st + 1)).
  eexists _, _.
  split; [|split; [apply Mem_list|split; [apply Mem_list|]]].
  - run_async. rewrite D. simpl. unfold MemContainer.upsert.
    rewrite Di, Hi, St. reflexivity.
  - intros q. simpl. rewrite !In_listed. split.
    + intros (k & d' & L' & T).
      destruct (decide (id = k)) as [<-|N].
      * rewrite lookup_insert_eq in L'. injection L' as <-.
        exists id, d. split; [exact L|]. now rewrite <- T, St.
      * rewrite lookup_insert_ne in L' by exact N. eauto.
    + intros (k & d' & L' & T).
      destruct (decide (id = k)) as [<-|N].
      * exists id, (MemContainer.stamp st dto).
        split; [apply lookup_insert_eq|].
        rewrite St. congruence.
      * exists k, d'. split; [|exact T].
        now rewrite lookup_insert_ne.
Qed.

Lemma read_then_save_witness :
  exists st1 ps ps1,
    @save _ MemContainer.container widgetEntity
      (MemRepo.execAll [MemRepo.Save widgetEntity]
         (MemContainer.empty false))
      = (Return widgetEntity, st1) /\
    @list _ MemContainer.container
      (MemRepo.execAll [MemRepo.Save widgetEntity]
         (MemContainer.empty false))
      = (Return ps,
         MemRepo.execAll [MemRepo.Save widgetEntity]
           (MemContainer.empty false)) /\
    @list _ MemContainer.container st1 = (Return ps1, st1) /\
    forall q, In q ps1 <-> In q ps.
Proof.
  apply (read_then_save [MemRepo.Save widgetEntity] false (str "p1")
           widgetEntity).
  - repeat constructor.
  - vm_compute. reflexivity.
Defined.
